(** * Skyrock_Jeux: the gaming-revenue analyser and the scenario simulator

    A shallow embedding of [src/Jeux.py]: the aggregate computations of
    [SkyrockGamingAnalyzer] and the what-if transformation of
    [GamingScenarioSimulator], followed by the properties the
    specification states about them.

    Modelling choices.
    - Python [int] is [Z].  Python [float] is the IEEE 754 binary64 type
      [float] of the standard library, with its correctly rounded [+], [-],
      [*], [/] and its comparisons; a literal such as [0.8] denotes the
      nearest double.  [round(x, 2)], [int(x)] and the conversion of an
      [int] to a [float] are defined on the exact binary value, as CPython
      computes them.  [sum] adds from the left in double precision, one
      rounding per addition (CPython up to 3.11; later versions compensate
      the rounding errors of a float sum).
    - A Python [dict] is an association list in insertion order (order
      matters for [max]/[min] ties, for iteration and for sums).
    - The per-year records are mutable [dict] objects.  They live in a
      store and the outer dictionaries hold references to them, so that
      [dict.copy()] (a shallow copy) shares them.
    - The margin rate and the multipliers of a scenario are floats, as in
      the script ([0.18], [1.5], [1.3]).
    - A raised exception is a value of [exn]; a computation that may raise
      returns [result A].  A computation on the store returns the store
      too, also when it raises: what was written before the exception
      stays written. *)

From Stdlib Require Import ZArith Floats Lia Permutation Sorted.
From stdpp Require Import base list strings pretty.

Set Warnings "-inexact-float".

(** ** Exceptions and the error monad *)

Inductive exn : Type :=
| ValueError          (* max() / min() of an empty sequence; int(nan) *)
| KeyError            (* d[k] with k absent *)
| ZeroDivisionError   (* x / 0.0 *)
| OverflowError       (* int(inf); an int too large for a float *)
| SystemError.        (* a reference outside the store; not reachable
                         from objects built by the constructors *)

Definition result (A : Type) : Type := (exn + A)%type.

Definition ret {A : Type} (a : A) : result A := inr a.
Definition raise {A : Type} (e : exn) : result A := inl e.
Definition bind {A B : Type} (m : result A) (k : A → result B) : result B :=
  match m with
  | inl e => inl e
  | inr a => k a
  end.

Notation "'let*' x ':=' m 'in' k" := (bind m (fun x => k))
  (at level 10, x name, m at level 100, k at level 200, only parsing).

(** ** Python built-ins used by the script *)

Module Py.

(** The double nearest to an integer, ties to even; infinite when the
    integer is beyond the range of the doubles. *)
Definition of_int (n : Z) : float :=
  SF2Prim (binary_normalize prec emax n 0 false).

(** The conversion of an [int] operand of a float operation. *)
Definition to_float (n : Z) : result float :=
  let f := of_int n in
  if is_infinity f then raise OverflowError else ret f.

(** [int(x)] on a float: truncation toward zero of the exact value
    [m * 2^e]. *)
Definition int (x : float) : result Z :=
  match Prim2SF x with
  | S754_nan => raise ValueError
  | S754_infinity _ => raise OverflowError
  | S754_zero _ => ret 0%Z
  | S754_finite s m e =>
      let a := match e with
               | Zneg p => Z.shiftr (Zpos m) (Zpos p)
               | _ => Z.shiftl (Zpos m) e
               end in
      ret (if s then (- a)%Z else a)
  end.

(** [math.floor(x)], the floor the specification speaks of. *)
Definition floor (x : float) : result Z :=
  match Prim2SF x with
  | S754_nan => raise ValueError
  | S754_infinity _ => raise OverflowError
  | S754_zero _ => ret 0%Z
  | S754_finite s m e =>
      match e with
      | Zneg p =>
          ret (if s then (- (Zpos m) / Z.pow 2 (Zpos p))%Z
               else (Zpos m / Z.pow 2 (Zpos p))%Z)
      | _ => ret (if s then (- Z.shiftl (Zpos m) e)%Z else Z.shiftl (Zpos m) e)
      end
  end.

(** The quotient of [n] by [d > 0] rounded to the nearest integer, ties to
    the even neighbour. *)
Definition div_half_even (n d : Z) : Z :=
  let q := (n / d)%Z in
  let r := (n mod d)%Z in
  match (2 * r ?= d)%Z with
  | Lt => q
  | Gt => (q + 1)%Z
  | Eq => if Z.even q then q else (q + 1)%Z
  end.

(** [round(x, ndigits)] for [ndigits > 0]: the exact value of [x] is
    rounded to the nearest multiple of [10^-ndigits], ties to even, and the
    double nearest to that decimal is returned; zeros, infinities and nan
    are returned as they are. *)
Definition round (x : float) (ndigits : positive) : float :=
  match Prim2SF x with
  | S754_finite s m e =>
      let scale := Pos.pow 10 ndigits in
      let n := (Zpos m * Zpos scale)%Z in
      let k := match e with
               | Zneg p => div_half_even n (Z.pow 2 (Zpos p))
               | _ => Z.shiftl n e
               end in
      match k with
      | Zpos kp =>
          SF2Prim (SFdiv prec emax (S754_finite s kp 0) (S754_finite false scale 0))
      | _ => SF2Prim (S754_zero s)
      end
  | _ => x
  end.

(** [sum(xs)]: starts from 0 and adds from the left. *)
Definition sum (xs : list float) : float := fold_left PrimFloat.add xs 0%float.

(** [max(xs)] / [min(xs)] on integers: the running extreme is replaced
    only by a strictly better element. *)
Definition max (xs : list Z) : result Z :=
  match xs with
  | [] => raise ValueError
  | x :: xs' => ret (fold_left (fun m y => if (m <? y)%Z then y else m) xs' x)
  end.

Definition min (xs : list Z) : result Z :=
  match xs with
  | [] => raise ValueError
  | x :: xs' => ret (fold_left (fun m y => if (y <? m)%Z then y else m) xs' x)
  end.

(** [max(xs, key=f)] / [min(xs, key=f)] with a float-valued key: the
    running extreme is replaced when the key of the next element is
    strictly greater (smaller). *)
Definition max_key {A : Type} (key : A → float) (xs : list A) : result A :=
  match xs with
  | [] => raise ValueError
  | x :: xs' =>
      ret (fold_left (fun m y => if (key m <? key y)%float then y else m) xs' x)
  end.

Definition min_key {A : Type} (key : A → float) (xs : list A) : result A :=
  match xs with
  | [] => raise ValueError
  | x :: xs' =>
      ret (fold_left (fun m y => if (key y <? key m)%float then y else m) xs' x)
  end.

(** [x / y] on floats. *)
Definition truediv (x y : float) : result float :=
  if is_zero y then raise ZeroDivisionError else ret (x / y)%float.

(** [x / len(xs)].  A length is below 2^63: its conversion cannot overflow,
    and it is zero as a float exactly when it is zero. *)
Definition truediv_len (x : float) (n : Z) : result float :=
  if (n =? 0)%Z then raise ZeroDivisionError else ret (x / of_int n)%float.

(** [len(xs)]. *)
Definition len {A : Type} (xs : list A) : Z := Z.of_nat (length xs).

(** [f"{n}"] for an integer. *)
Definition str (n : Z) : string := pretty n.

End Py.

(** ** Dictionaries, in insertion order *)

Module Dict.
Section Ops.
Context {K V : Type} `{EqDecision K}.

Definition t : Type := list (K * V).

Definition keys (d : t) : list K := map fst d.
Definition values (d : t) : list V := map snd d.
Definition items (d : t) : list (K * V) := d.

(** [d.get(k)], [None] when absent. *)
Fixpoint lookup (d : t) (k : K) : option V :=
  match d with
  | [] => None
  | (k', v) :: d' => if decide (k' = k) then Some v else lookup d' k
  end.

(** [k in d] *)
Definition contains (d : t) (k : K) : bool :=
  match lookup d k with Some _ => true | None => false end.

(** [d[k]] *)
Definition getitem (d : t) (k : K) : result V :=
  match lookup d k with Some v => ret v | None => raise KeyError end.

(** [d.get(k, default)] *)
Definition get (d : t) (k : K) (default : V) : V :=
  match lookup d k with Some v => v | None => default end.

(** [d[k] = v]: an existing key keeps its position, a new key goes
    last. *)
Fixpoint setitem (d : t) (k : K) (v : V) : t :=
  match d with
  | [] => [(k, v)]
  | (k', v') :: d' =>
      if decide (k' = k) then (k', v) :: d' else (k', v') :: setitem d' k v
  end.

(** [d.copy()]: a new dictionary with the same keys bound to the same
    values (for mutable values: to the same objects). *)
Definition copy (d : t) : t := d.
End Ops.
Arguments t : clear implicits.
End Dict.

(** ** The data set *)

(** One inner dictionary [{'revenue': .., 'players': .., 'bets': .., 'type': ..}]. *)
Record YearData : Type := mkYearData {
  revenue : float;
  players : Z;
  bets : float;
  type : string
}.

Definition set_revenue (x : float) (d : YearData) : YearData :=
  mkYearData x (players d) (bets d) (type d).
Definition set_players (n : Z) (d : YearData) : YearData :=
  mkYearData (revenue d) n (bets d) (type d).
Definition set_bets (x : float) (d : YearData) : YearData :=
  mkYearData (revenue d) (players d) x (type d).

(** The contents of a data set: year to record. *)
Definition Dataset : Type := Dict.t Z YearData.

(** [_create_gaming_revenue_data]: revenue and bets in millions. *)
Definition _create_gaming_revenue_data : Dataset :=
  [ (2010%Z, mkYearData 0.8 15000 12.5 "Lancement");
    (2011%Z, mkYearData 1.5 28000 25.0 "Croissance");
    (2012%Z, mkYearData 2.2 42000 38.5 "Croissance");
    (2013%Z, mkYearData 2.8 55000 52.0 "Croissance");
    (2014%Z, mkYearData 3.5 68000 68.5 "Pic");
    (2015%Z, mkYearData 4.2 75000 85.0 "Pic");
    (2016%Z, mkYearData 4.0 72000 78.0 "Stabilisation");
    (2017%Z, mkYearData 3.8 70000 72.5 "Stabilisation");
    (2018%Z, mkYearData 3.2 65000 65.0 "Declin");
    (2019%Z, mkYearData 2.5 55000 55.0 "Declin");
    (2020%Z, mkYearData 1.8 40000 42.5 "COVID");
    (2021%Z, mkYearData 1.2 30000 35.0 "Declin");
    (2022%Z, mkYearData 0.9 25000 28.5 "Residuel");
    (2023%Z, mkYearData 0.7 22000 25.0 "Residuel") ].

(** ** SkyrockGamingAnalyzer: the aggregate computations

    The methods only read [self.gaming_data]; they are given here as
    functions of its contents. *)

Record Cumulative : Type := mkCumulative {
  revenue_total : float;
  bets_total : float;
  players_max : Z;
  revenue_moyen_an : float;
  periode : string
}.

Definition calculate_cumulative_revenue (gaming_data : Dataset) : result Cumulative :=
  let total_revenue := Py.sum (map revenue (Dict.values gaming_data)) in
  let total_bets := Py.sum (map bets (Dict.values gaming_data)) in
  let* total_players := Py.max (map players (Dict.values gaming_data)) in
  let* moyen := Py.truediv_len total_revenue (Py.len gaming_data) in
  let* first := Py.min (Dict.keys gaming_data) in
  let* last := Py.max (Dict.keys gaming_data) in
  ret (mkCumulative
         (Py.round total_revenue 2)
         (Py.round total_bets 2)
         total_players
         (Py.round moyen 2)
         (Py.str first +:+ "-" +:+ Py.str last)).

Record Profit : Type := mkProfit {
  p_revenue : float;
  profit : float;
  margin_rate : float
}.

(** The loop body of [estimate_profits]: [profits[year] = {...}]. *)
Definition estimate_profits_step (margin_rate : float)
    (profits : Dict.t Z Profit) (item : Z * YearData) : Dict.t Z Profit :=
  let '(year, data) := item in
  let revenue := revenue data in
  let profit := (revenue * margin_rate)%float in
  Dict.setitem profits year (mkProfit revenue (Py.round profit 2) margin_rate).

Definition estimate_profits (gaming_data : Dataset) (margin_rate : float)
    : result (Dict.t Z Profit * float) :=
  let profits := fold_left (estimate_profits_step margin_rate) (Dict.items gaming_data) [] in
  let total_profit := Py.sum (map profit (Dict.values profits)) in
  ret (profits, total_profit).

(** The market-size table of [analyze_market_share], in billions. *)
Definition market_size : Dict.t Z float :=
  [ (2010%Z, 0.8); (2011%Z, 1.2); (2012%Z, 1.6); (2013%Z, 2.0); (2014%Z, 2.4);
    (2015%Z, 2.8); (2016%Z, 3.2); (2017%Z, 3.6); (2018%Z, 4.0); (2019%Z, 4.4);
    (2020%Z, 4.8); (2021%Z, 5.2); (2022%Z, 5.6); (2023%Z, 6.0) ]%float.

(** The loop body of [analyze_market_share], for a given reference series. *)
Definition market_share_step (market_size : Dict.t Z float)
    (market_shares : Dict.t Z float) (item : Z * YearData) : result (Dict.t Z float) :=
  let '(year, data) := item in
  let skyrock_revenue := revenue data in
  let* size := Dict.getitem market_size year in
  let total_market := (size * 1000)%float in
  let* share := Py.truediv skyrock_revenue total_market in
  let market_share := (share * 100)%float in
  ret (Dict.setitem market_shares year (Py.round market_share 2)).

Fixpoint market_share_loop (market_size : Dict.t Z float)
    (market_shares : Dict.t Z float) (items : list (Z * YearData))
    : result (Dict.t Z float) :=
  match items with
  | [] => ret market_shares
  | item :: items' =>
      let* market_shares' := market_share_step market_size market_shares item in
      market_share_loop market_size market_shares' items'
  end.

Definition analyze_market_share_with (market_size : Dict.t Z float)
    (gaming_data : Dataset) : result (Dict.t Z float) :=
  market_share_loop market_size [] (Dict.items gaming_data).

Definition analyze_market_share (gaming_data : Dataset) : result (Dict.t Z float) :=
  analyze_market_share_with market_size gaming_data.

(** From [generate_comprehensive_report]: the best and the worst year. *)
Definition best_year (gaming_data : Dataset) : result (Z * YearData) :=
  Py.max_key (fun x => revenue (snd x)) (Dict.items gaming_data).

Definition worst_year (gaming_data : Dataset) : result (Z * YearData) :=
  Py.min_key (fun x => revenue (snd x)) (Dict.items gaming_data).

(** From [generate_comprehensive_report]: the trend over the period. *)
Definition growth (gaming_data : Dataset) : result float :=
  let* first_year := Py.min (Dict.keys gaming_data) in
  let* last_year := Py.max (Dict.keys gaming_data) in
  let* last := Dict.getitem gaming_data last_year in
  let* first := Dict.getitem gaming_data first_year in
  let* first' := Dict.getitem gaming_data first_year in
  let* ratio := Py.truediv (revenue last - revenue first)%float (revenue first') in
  ret (ratio * 100)%float.

(** ** The object store

    The inner dictionaries are objects: a reference is an index in the
    store, a new object goes to its end. *)

Abbreviation ref := nat (only parsing).
Abbreviation heap := (list YearData) (only parsing).

(** Computations that read and write the store and may raise; the store
    is returned in both cases. *)
Definition St (A : Type) : Type := heap → result A * heap.

Definition st_ret {A : Type} (a : A) : St A := fun h => (ret a, h).
Definition st_bind {A B : Type} (m : St A) (k : A → St B) : St B :=
  fun h => match m h with
           | (inl e, h') => (inl e, h')
           | (inr a, h') => k a h'
           end.
Definition lift {A : Type} (m : result A) : St A := fun h => (m, h).

Notation "'do*' x ':=' m 'in' k" := (st_bind m (fun x => k))
  (at level 10, x name, m at level 100, k at level 200, only parsing).

(** A dictionary display [{...}] creates a new object. *)
Definition alloc (d : YearData) : St ref :=
  fun h => (ret (length h), h ++ [d]).

(** The object behind a reference. *)
Definition load (r : ref) : St YearData :=
  fun h => match h !! r with
           | Some d => (ret d, h)
           | None => (raise SystemError, h)
           end.

(** [obj[field] = value] on the object behind a reference. *)
Definition modify (r : ref) (f : YearData → YearData) : St unit :=
  fun h => match h !! r with
           | Some d => (ret tt, <[r := f d]> h)
           | None => (raise SystemError, h)
           end.

Fixpoint for_each {A : Type} (xs : list A) (body : A → St unit) : St unit :=
  match xs with
  | [] => st_ret tt
  | x :: xs' => do* _ := body x in for_each xs' body
  end.

(** The outer dictionary [{2010: {...}, 2011: {...}, ...}]: one new object
    per year, in the order of the display. *)
Fixpoint dict_display (contents : Dataset) : St (Dict.t Z ref) :=
  match contents with
  | [] => st_ret []
  | (year, data) :: rest =>
      do* r := alloc data in
      do* d := dict_display rest in
      st_ret ((year, r) :: d)
  end.

(** What a dictionary of references holds in a given store. *)
Fixpoint contents (d : Dict.t Z ref) (h : heap) : result Dataset :=
  match d with
  | [] => ret []
  | (year, r) :: d' =>
      let* data := fst (load r h) in
      let* rest := contents d' h in
      ret ((year, data) :: rest)
  end.

(** ** The two classes *)

Record SkyrockGamingAnalyzer : Type := mkAnalyzer {
  gaming_data : Dict.t Z ref
}.

(** [SkyrockGamingAnalyzer.__init__], for a data set with the given
    contents; the script's own is [_create_gaming_revenue_data]. *)
Definition SkyrockGamingAnalyzer_init (data : Dataset) : St SkyrockGamingAnalyzer :=
  do* d := dict_display data in
  st_ret (mkAnalyzer d).

Record GamingScenarioSimulator : Type := mkSimulator {
  base_data : Dict.t Z ref
}.

(** [GamingScenarioSimulator.__init__] *)
Definition GamingScenarioSimulator_init (base_analyzer : SkyrockGamingAnalyzer)
    : St GamingScenarioSimulator :=
  st_ret (mkSimulator (Dict.copy (gaming_data base_analyzer))).

(** [int(players * multiplier)] for an int [players] and a float
    [multiplier]. *)
Definition scaled_players (players : Z) (multiplier : float) : result Z :=
  let* p := Py.to_float players in
  Py.int (p * multiplier)%float.

(** The loop body of [simulate_scenario]. *)
Definition simulate_step (simulated_data : Dict.t Z ref) (item : Z * float) : St unit :=
  let '(year, multiplier) := item in
  if Dict.contains simulated_data year then
    (* simulated_data[year]['revenue'] *= multiplier *)
    do* r := lift (Dict.getitem simulated_data year) in
    do* d := load r in
    do* _ := modify r (set_revenue (revenue d * multiplier)%float) in
    (* simulated_data[year]['players'] = int(simulated_data[year]['players'] * multiplier) *)
    do* r1 := lift (Dict.getitem simulated_data year) in
    do* d1 := load r1 in
    do* n := lift (scaled_players (players d1) multiplier) in
    do* r2 := lift (Dict.getitem simulated_data year) in
    do* _ := modify r2 (set_players n) in
    (* simulated_data[year]['bets'] *= multiplier *)
    do* r3 := lift (Dict.getitem simulated_data year) in
    do* d3 := load r3 in
    modify r3 (set_bets (bets d3 * multiplier)%float)
  else
    st_ret tt.

Definition simulate_scenario (self : GamingScenarioSimulator) (scenario_name : string)
    (parameters : Dict.t string (Dict.t Z float)) : St (Dict.t Z ref) :=
  let simulated_data := Dict.copy (base_data self) in
  do* _ := for_each (Dict.items (Dict.get parameters "revenue_multipliers" []))
                    (simulate_step simulated_data) in
  st_ret simulated_data.

(** Reading a dictionary of references in the current store; the
    analyser's methods read [self.gaming_data] this way. *)
Definition read (d : Dict.t Z ref) : St Dataset :=
  fun h => (contents d h, h).

Definition analyzer_contents (self : SkyrockGamingAnalyzer) : St Dataset :=
  read (gaming_data self).

(** ** The script: build the analyser and the simulator, run one scenario *)

Record Outcome : Type := mkOutcome {
  before : Dataset;          (* the analyser's data before the scenario *)
  after : Dataset;           (* the analyser's data after the scenario *)
  scenario_data : Dataset    (* the data set the scenario returned *)
}.

Definition run_scenario (data : Dataset) (scenario_name : string)
    (parameters : Dict.t string (Dict.t Z float)) : St Outcome :=
  do* analyzer := SkyrockGamingAnalyzer_init data in
  do* simulator := GamingScenarioSimulator_init analyzer in
  do* before := analyzer_contents analyzer in
  do* scenario := simulate_scenario simulator scenario_name parameters in
  do* scenario_data := read scenario in
  do* after := analyzer_contents analyzer in
  st_ret (mkOutcome before after scenario_data).

(** The end of the script: the scenario's revenue against the analyser's.
    The charts, the report and the export that come before only read the
    data. *)
Definition scenario_investissement : Dict.t string (Dict.t Z float) :=
  [ ("revenue_multipliers",
     [ (2014%Z, 1.5); (2015%Z, 1.5); (2016%Z, 1.3); (2017%Z, 1.3) ]%float) ].

Definition main : St (float * float) :=
  do* analyzer := SkyrockGamingAnalyzer_init _create_gaming_revenue_data in
  do* simulator := GamingScenarioSimulator_init analyzer in
  do* scenario := simulate_scenario simulator "Investissement renforce" scenario_investissement in
  do* scenario_data := read scenario in
  let revenue_scenario := Py.sum (map revenue (Dict.values scenario_data)) in
  do* reel := analyzer_contents analyzer in
  do* cumulative := lift (calculate_cumulative_revenue reel) in
  let revenue_reel := revenue_total cumulative in
  st_ret (revenue_reel, revenue_scenario).

(** ** Example data *)

(** The two-record data set of the specification's worked example. *)
Definition example_dataset : Dataset :=
  [ (2010%Z, mkYearData 0.8 15000 12.5 "Lancement");
    (2011%Z, mkYearData 1.5 28000 25.0 "Croissance") ].






(** A data set whose first year has no revenue. *)
Definition zero_start_dataset : Dataset :=
  [ (2010%Z, mkYearData 0 0 0 "Lancement");
    (2011%Z, mkYearData 1.5 28000 25.0 "Croissance") ].

(** A market-size series that lacks 2011. *)
Definition short_market : Dict.t Z float := [ (2010%Z, 0.8%float) ].

(** A market-size series with a zero size for 2011. *)
Definition zero_market : Dict.t Z float := [ (2010%Z, 0.8); (2011%Z, 0.0) ]%float.


(** The entry [analyze_market_share] stores for one record and its market size. *)
Definition share_entry (size : float) (data : YearData) : float :=
  Py.round (revenue data / (size * 1000) * 100) 2.

(** Years that share the greatest and the least revenue: in year order, and
    with the later year of each pair first. *)
Definition tied_dataset : Dataset :=
  [ (2010%Z, mkYearData 1.0 10 1.0 "Lancement");
    (2011%Z, mkYearData 2.0 20 2.0 "Pic");
    (2012%Z, mkYearData 2.0 30 2.0 "Pic");
    (2013%Z, mkYearData 1.0 40 1.0 "Declin") ].

Definition tied_unordered_dataset : Dataset :=
  [ (2012%Z, mkYearData 2.0 30 2.0 "Pic");
    (2011%Z, mkYearData 2.0 20 2.0 "Pic");
    (2013%Z, mkYearData 1.0 40 1.0 "Declin");
    (2010%Z, mkYearData 1.0 10 1.0 "Lancement") ].

(** ** The scenario on the contents of a data set *)

(** One record after a multiplier has been applied to it, [n] being the
    new player count. *)
Definition adjust (multiplier : float) (data : YearData) (n : Z) : YearData :=
  mkYearData (revenue data * multiplier) n (bets data * multiplier) (type data).

(** The effect of one adjustment on the contents of a data set: when the
    player count cannot be converted the exception comes out and the
    revenue stays multiplied. *)
Definition apply_step (data : Dataset) (item : Z * float) : result unit * Dataset :=
  match Dict.lookup data (fst item) with
  | None => (ret tt, data)
  | Some x =>
      match scaled_players (players x) (snd item) with
      | inr n => (ret tt, Dict.setitem data (fst item) (adjust (snd item) x n))
      | inl e =>
          (raise e,
           Dict.setitem data (fst item) (set_revenue (revenue x * snd item) x))
      end
  end.

(** The effect of all the adjustments, in order, up to the first
    exception. *)
Fixpoint apply_scenario (multipliers : Dict.t Z float) (data : Dataset)
    : result unit * Dataset :=
  match multipliers with
  | [] => (ret tt, data)
  | item :: rest =>
      match apply_step data item with
      | (inr _, data') => apply_scenario rest data'
      | (inl e, data') => (inl e, data')
      end
  end.

(** The adjustments whose year a dictionary has. *)
Definition known_years {V : Type} (d : Dict.t Z V) (multipliers : Dict.t Z float)
    : Dict.t Z float :=
  List.filter (fun item => Dict.contains d (fst item)) multipliers.

(** Every adjusted year of the data set has a player count that can be
    multiplied and converted back. *)
Definition convertible (multipliers : Dict.t Z float) (data : Dataset) : Prop :=
  ∀ year m x,
    Dict.lookup multipliers year = Some m → Dict.lookup data year = Some x →
    ∃ n, scaled_players (players x) m = inr n.

(** A simulator over the example: two objects in the store, one per year. *)
Definition example_store : list YearData := Dict.values example_dataset.
Definition example_simulator : GamingScenarioSimulator :=
  mkSimulator [ (2010%Z, 0); (2011%Z, 1) ].

(** Scenarios on the example: double 2010; double 2010 and adjust two years
    the data set does not have; only years the data set does not have; a
    negative and a zero multiplier; a positive multiplier too large for the
    player count. *)
Definition double_2010 : Dict.t string (Dict.t Z float) :=
  [ ("revenue_multipliers", [ (2010%Z, 2.0%float) ]) ].
Definition double_2010_and_unknown : Dict.t string (Dict.t Z float) :=
  [ ("revenue_multipliers", [ (1999%Z, 3.0); (2010%Z, 2.0); (2050%Z, 5.0) ]%float) ].
Definition only_unknown : Dict.t string (Dict.t Z float) :=
  [ ("revenue_multipliers", [ (1999%Z, 3.0); (2050%Z, 5.0) ]%float) ].
Definition negative_and_zero : Dict.t string (Dict.t Z float) :=
  [ ("revenue_multipliers", [ (2010%Z, (-1.0)%float); (2011%Z, 0.0%float) ]) ].
Definition huge_2010 : Dict.t string (Dict.t Z float) :=
  [ ("revenue_multipliers", [ (2010%Z, 1e305%float) ]) ].

(** * Properties *)

(** ** The order of the doubles *)

Section SpecOrder.
Implicit Types a b c : spec_float.

Lemma SFcompare_lt_trans a b c :
  SFcompare a b = Some Lt → SFcompare b c = Some Lt → SFcompare a c = Some Lt.
Proof.
  destruct a as [[]|[]| |[] ma ea], b as [[]|[]| |[] mb eb], c as [[]|[]| |[] mc ec];
    simpl; try discriminate; try reflexivity; intros H1 H2;
    injection H1 as H1; injection H2 as H2; f_equal;
    repeat match goal with
           | H : context [Z.compare ?x ?y] |- _ =>
               destruct (Z.compare_spec x y); try discriminate
           | |- context [Z.compare ?x ?y] =>
               destruct (Z.compare_spec x y); try lia
           end;
    subst;
    repeat match goal with
           | H : context [Pos.compare_cont Eq ?x ?y] |- _ =>
               change (Pos.compare_cont Eq x y) with (Pos.compare x y) in H;
               destruct (Pos.compare_spec x y); try discriminate
           | |- context [Pos.compare_cont Eq ?x ?y] =>
               change (Pos.compare_cont Eq x y) with (Pos.compare x y);
               destruct (Pos.compare_spec x y); try lia
           end;
    try reflexivity; try discriminate; lia.
Qed.

Lemma SFcompare_eq_lt a b c :
  SFcompare a b = Some Eq → SFcompare b c = Some Lt → SFcompare a c = Some Lt.
Proof.
  destruct a as [[]|[]| |[] ma ea], b as [[]|[]| |[] mb eb], c as [[]|[]| |[] mc ec];
    simpl; try discriminate; try reflexivity; intros H1 H2;
    injection H1 as H1; injection H2 as H2; f_equal;
    repeat match goal with
           | H : context [Z.compare ?x ?y] |- _ =>
               destruct (Z.compare_spec x y); try discriminate
           | |- context [Z.compare ?x ?y] =>
               destruct (Z.compare_spec x y); try lia
           end;
    subst;
    repeat match goal with
           | H : context [Pos.compare_cont Eq ?x ?y] |- _ =>
               change (Pos.compare_cont Eq x y) with (Pos.compare x y) in H;
               destruct (Pos.compare_spec x y); try discriminate
           | |- context [Pos.compare_cont Eq ?x ?y] =>
               change (Pos.compare_cont Eq x y) with (Pos.compare x y);
               destruct (Pos.compare_spec x y); try lia
           end;
    try reflexivity; try discriminate; lia.
Qed.

Lemma SFcompare_antisym a b :
  SFcompare b a = option_map CompOpp (SFcompare a b).
Proof.
  destruct a as [[]|[]| |[] ma ea], b as [[]|[]| |[] mb eb]; simpl; try reflexivity;
    f_equal; rewrite (Z.compare_antisym ea eb);
    destruct (Z.compare ea eb); simpl; try reflexivity;
    change (Pos.compare_cont Eq mb ma) with (Pos.compare mb ma);
    change (Pos.compare_cont Eq ma mb) with (Pos.compare ma mb);
    rewrite (Pos.compare_antisym ma mb); by destruct (Pos.compare ma mb).
Qed.

Lemma SFcompare_None a b : SFcompare a b = None → a = S754_nan ∨ b = S754_nan.
Proof.
  destruct a as [[]|[]| |[] ma ea], b as [[]|[]| |[] mb eb]; simpl;
    try discriminate; auto.
Qed.

Lemma SFcompare_refl a : a ≠ S754_nan → SFcompare a a = Some Eq.
Proof.
  destruct a as [[]|[]| |[] ma ea]; simpl; try done;
    intros _; f_equal; rewrite Z.compare_refl;
    change (Pos.compare_cont Eq ma ma) with (Pos.compare ma ma);
    by rewrite Pos.compare_refl.
Qed.
End SpecOrder.

Lemma is_nan_false (x : float) : is_nan x = false → Prim2SF x ≠ S754_nan.
Proof.
  unfold is_nan. rewrite FloatAxioms.eqb_spec. unfold SFeqb. intros H E. rewrite E in H.
  discriminate.
Qed.

Lemma ltb_trans (x y z : float) :
  (x <? y)%float = true → (y <? z)%float = true → (x <? z)%float = true.
Proof.
  rewrite !FloatAxioms.ltb_spec. unfold SFltb. intros H1 H2.
  destruct (SFcompare (Prim2SF x) (Prim2SF y)) as [[]|] eqn:E1; try discriminate.
  destruct (SFcompare (Prim2SF y) (Prim2SF z)) as [[]|] eqn:E2; try discriminate.
  by rewrite (SFcompare_lt_trans _ _ _ E1 E2).
Qed.

Lemma ltb_leb (x y : float) : (x <? y)%float = true → (x <=? y)%float = true.
Proof.
  rewrite FloatAxioms.ltb_spec, FloatAxioms.leb_spec. unfold SFltb, SFleb.
  by destruct (SFcompare (Prim2SF x) (Prim2SF y)) as [[]|].
Qed.

Lemma leb_refl (x : float) : is_nan x = false → (x <=? x)%float = true.
Proof.
  intros H. rewrite FloatAxioms.leb_spec. unfold SFleb.
  by rewrite (SFcompare_refl _ (is_nan_false x H)).
Qed.

Lemma not_ltb_leb (x y : float) :
  is_nan x = false → is_nan y = false →
  (x <? y)%float = false → (y <=? x)%float = true.
Proof.
  intros Hx Hy. rewrite FloatAxioms.ltb_spec, FloatAxioms.leb_spec. unfold SFltb, SFleb.
  rewrite (SFcompare_antisym (Prim2SF x) (Prim2SF y)).
  destruct (SFcompare (Prim2SF x) (Prim2SF y)) as [[]|] eqn:E; simpl; try done.
  apply SFcompare_None in E as [E|E]; [by apply is_nan_false in Hx|by apply is_nan_false in Hy].
Qed.

Lemma leb_ltb_trans (x y z : float) :
  (x <=? y)%float = true → (y <? z)%float = true → (x <? z)%float = true.
Proof.
  rewrite FloatAxioms.leb_spec, !FloatAxioms.ltb_spec. unfold SFleb, SFltb. intros H1 H2.
  destruct (SFcompare (Prim2SF y) (Prim2SF z)) as [[]|] eqn:E2; try discriminate.
  destruct (SFcompare (Prim2SF x) (Prim2SF y)) as [[]|] eqn:E1; try discriminate.
  - by rewrite (SFcompare_eq_lt _ _ _ E1 E2).
  - by rewrite (SFcompare_lt_trans _ _ _ E1 E2).
Qed.

Lemma ltb_not_eqb (x y : float) : (x <? y)%float = true → (x =? y)%float = false.
Proof.
  rewrite FloatAxioms.ltb_spec, FloatAxioms.eqb_spec. unfold SFltb, SFeqb.
  by destruct (SFcompare (Prim2SF x) (Prim2SF y)) as [[]|].
Qed.

Lemma ltb_not_eqb_sym (x y : float) : (x <? y)%float = true → (y =? x)%float = false.
Proof.
  rewrite FloatAxioms.ltb_spec, FloatAxioms.eqb_spec. unfold SFltb, SFeqb.
  rewrite (SFcompare_antisym (Prim2SF x) (Prim2SF y)).
  by destruct (SFcompare (Prim2SF x) (Prim2SF y)) as [[]|].
Qed.

(** ** [max] and [min] on integers *)

Lemma max_fold_spec (xs : list Z) (x : Z) :
  let m := fold_left (fun m y => if (m <? y)%Z then y else m) xs x in
  (m = x ∨ In m xs) ∧ (x ≤ m)%Z ∧ (∀ y, In y xs → (y ≤ m)%Z).
Proof.
  revert x. induction xs as [|a xs IH]; intros x; simpl.
  - split; [by left|]. split; [lia|]. intros y [].
  - destruct (IH (if (x <? a)%Z then a else x)) as (Hin & Hle & Hall).
    destruct (Z.ltb_spec x a).
    + split; [destruct Hin; auto|]. split; [lia|].
      intros y [<-|Hy]; auto.
    + split; [destruct Hin; auto|]. split; [lia|].
      intros y [<-|Hy]; [lia|auto].
Qed.

Lemma min_fold_spec (xs : list Z) (x : Z) :
  let m := fold_left (fun m y => if (y <? m)%Z then y else m) xs x in
  (m = x ∨ In m xs) ∧ (m ≤ x)%Z ∧ (∀ y, In y xs → (m ≤ y)%Z).
Proof.
  revert x. induction xs as [|a xs IH]; intros x; simpl.
  - split; [by left|]. split; [lia|]. intros y [].
  - destruct (IH (if (a <? x)%Z then a else x)) as (Hin & Hle & Hall).
    destruct (Z.ltb_spec a x).
    + split; [destruct Hin; auto|]. split; [lia|].
      intros y [<-|Hy]; auto.
    + split; [destruct Hin; auto|]. split; [lia|].
      intros y [<-|Hy]; [lia|auto].
Qed.

(** [max] of a non-empty list returns its greatest element. *)
Lemma max_spec (xs : list Z) :
  xs ≠ [] → ∃ m, Py.max xs = inr m ∧ In m xs ∧ (∀ y, In y xs → (y ≤ m)%Z).
Proof.
  destruct xs as [|x xs]; [done|]. intros _.
  destruct (max_fold_spec xs x) as (Hin & Hle & Hall).
  eexists. split; [reflexivity|]. split.
  - destruct Hin as [->|]; [by left|by right].
  - intros y [<-|Hy]; auto.
Qed.

(** [min] of a non-empty list returns its least element. *)
Lemma min_spec (xs : list Z) :
  xs ≠ [] → ∃ m, Py.min xs = inr m ∧ In m xs ∧ (∀ y, In y xs → (m ≤ y)%Z).
Proof.
  destruct xs as [|x xs]; [done|]. intros _.
  destruct (min_fold_spec xs x) as (Hin & Hle & Hall).
  eexists. split; [reflexivity|]. split.
  - destruct Hin as [->|]; [by left|by right].
  - intros y [<-|Hy]; auto.
Qed.



Lemma truediv_nonzero (x y : float) :
  is_zero y = false → Py.truediv x y = inr (x / y)%float.
Proof. intros H. unfold Py.truediv. by rewrite H. Qed.

Lemma truediv_zero (x y : float) :
  is_zero y = true → Py.truediv x y = inl ZeroDivisionError.
Proof. intros H. unfold Py.truediv. by rewrite H. Qed.


(** ** [calculate_cumulative_revenue] *)







(** ** Dictionaries *)

Section DictLemmas.
Context {K V : Type} `{EqDecision K}.
Implicit Types (d : Dict.t K V) (k : K) (v : V).

Lemma lookup_Some_In d k v : Dict.lookup d k = Some v → In (k, v) d.
Proof.
  induction d as [|[k' v'] d IH]; simpl; [done|].
  destruct (decide (k' = k)) as [->|Hne].
  - intros [= ->]. by left.
  - intros H'. right. by apply IH.
Qed.

Lemma lookup_None_iff d k : Dict.lookup d k = None ↔ ¬ In k (Dict.keys d).
Proof.
  induction d as [|[k' v'] d IH]; simpl.
  - split; [intros _ []|done].
  - destruct (decide (k' = k)) as [->|Hne].
    + split; [done|]. intros Hn. exfalso. apply Hn. by left.
    + rewrite IH. split.
      * intros Hn [Hk|Hk]; [done|by apply Hn].
      * intros Hn Hk. apply Hn. by right.
Qed.

Lemma lookup_In_keys d k : In k (Dict.keys d) → ∃ v, Dict.lookup d k = Some v.
Proof.
  intros Hk. destruct (Dict.lookup d k) as [v|] eqn:E; [by exists v|].
  apply lookup_None_iff in E. contradiction.
Qed.

Lemma lookup_Some_keys d k v : Dict.lookup d k = Some v → In k (Dict.keys d).
Proof.
  intros Hl. apply lookup_Some_In in Hl. change k with (fst (k, v)). by apply in_map.
Qed.

Lemma setitem_fresh d k v : ¬ In k (Dict.keys d) → Dict.setitem d k v = d ++ [(k, v)].
Proof.
  induction d as [|[k' v'] d IH]; simpl; [done|].
  intros Hn. destruct (decide (k' = k)) as [->|Hne].
  - exfalso. apply Hn. by left.
  - f_equal. apply IH. intros Hk. apply Hn. by right.
Qed.

Lemma keys_setitem_present d k v :
  In k (Dict.keys d) → Dict.keys (Dict.setitem d k v) = Dict.keys d.
Proof.
  induction d as [|[k' v'] d IH]; simpl; [done|].
  intros Hk. destruct (decide (k' = k)) as [->|Hne]; simpl; [done|].
  f_equal. apply IH. by destruct Hk.
Qed.

Lemma lookup_setitem_eq d k v : Dict.lookup (Dict.setitem d k v) k = Some v.
Proof.
  induction d as [|[k' v'] d IH]; simpl.
  - by rewrite decide_True.
  - destruct (decide (k' = k)) as [->|Hne]; simpl.
    + by rewrite decide_True.
    + by rewrite decide_False.
Qed.

Lemma lookup_setitem_ne d k k' v :
  k ≠ k' → Dict.lookup (Dict.setitem d k v) k' = Dict.lookup d k'.
Proof.
  intros Hne. induction d as [|[k0 v0] d IH]; simpl.
  - by rewrite decide_False.
  - destruct (decide (k0 = k)) as [->|Hne0]; simpl.
    + by rewrite !decide_False.
    + destruct (decide (k0 = k')); [done|apply IH].
Qed.
End DictLemmas.




Lemma example_years_distinct : NoDup (Dict.keys example_dataset).
Proof.
  repeat (apply NoDup_cons_2; [rewrite list_elem_of_In; simpl; intuition discriminate|]).
  apply NoDup_nil_2.
Defined.

(** ** [estimate_profits] *)





(** ** [analyze_market_share] *)

Lemma market_share_step_ok (ms : Dict.t Z float) (acc : Dict.t Z float)
    (year : Z) (data : YearData) (s : float) :
  Dict.lookup ms year = Some s → is_zero (s * 1000) = false →
  market_share_step ms acc (year, data)
  = inr (Dict.setitem acc year (share_entry s data)).
Proof.
  intros Hl Hs. unfold market_share_step, Dict.getitem. rewrite Hl. cbn [bind ret].
  rewrite (truediv_nonzero _ _ Hs). reflexivity.
Qed.

Lemma market_share_step_missing (ms : Dict.t Z float) (acc : Dict.t Z float)
    (year : Z) (data : YearData) :
  Dict.lookup ms year = None → market_share_step ms acc (year, data) = inl KeyError.
Proof. intros Hl. unfold market_share_step, Dict.getitem. by rewrite Hl. Qed.

Lemma market_share_step_zero (ms : Dict.t Z float) (acc : Dict.t Z float)
    (year : Z) (data : YearData) (s : float) :
  Dict.lookup ms year = Some s → is_zero (s * 1000) = true →
  market_share_step ms acc (year, data) = inl ZeroDivisionError.
Proof.
  intros Hl Hs. unfold market_share_step, Dict.getitem. rewrite Hl. cbn [bind ret].
  rewrite (truediv_zero _ _ Hs). reflexivity.
Qed.

(** All years present, no scaled size zero: one rounded share per year, in
    the order of the data set. *)
Lemma market_share_loop_ok (ms : Dict.t Z float) (items : Dataset) (acc : Dict.t Z float) :
  NoDup (Dict.keys acc ++ Dict.keys items) →
  (∀ year, In year (Dict.keys items) →
           ∃ s, Dict.lookup ms year = Some s ∧ is_zero (s * 1000) = false) →
  ∃ shares,
    market_share_loop ms acc items = inr shares
    ∧ Dict.keys shares = Dict.keys acc ++ Dict.keys items
    ∧ (∀ year, ¬ In year (Dict.keys items) →
               Dict.lookup shares year = Dict.lookup acc year)
    ∧ (∀ year data s, Dict.lookup items year = Some data →
                      Dict.lookup ms year = Some s →
                      Dict.lookup shares year = Some (share_entry s data)).
Proof.
  revert acc. induction items as [|[y data] items IH]; intros acc Hnd Hall.
  - exists acc. simpl. rewrite app_nil_r. repeat split; try done.
  - destruct (Hall y) as (s & Hs & Hs0); [by left|].
    cbn [market_share_loop]. rewrite (market_share_step_ok ms acc y data s Hs Hs0).
    cbn [bind].
    assert (Hfresh : ¬ In y (Dict.keys acc)).
    { intros Hy. apply NoDup_app in Hnd as (_ & Hdisj & _).
      apply (Hdisj y); [by apply list_elem_of_In|]. simpl. left. }
    rewrite (setitem_fresh acc y _ Hfresh).
    assert (Hnd' : NoDup (Dict.keys (acc ++ [(y, share_entry s data)]) ++ Dict.keys items)).
    { unfold Dict.keys in *. rewrite map_app. simpl. rewrite <- app_assoc. exact Hnd. }
    destruct (IH _ Hnd') as (shares & E & Hk & Hother & Hthis).
    { intros year Hy. apply Hall. by right. }
    exists shares. split; [exact E|]. split.
    { rewrite Hk. unfold Dict.keys. rewrite map_app. simpl. by rewrite <- app_assoc. }
    assert (Hy_items : ¬ In y (Dict.keys items)).
    { apply NoDup_app in Hnd as (_ & _ & Hnd). simpl in Hnd.
      apply NoDup_cons in Hnd as [Hy _]. by rewrite <- list_elem_of_In. }
    split.
    + intros year Hyear. rewrite Hother.
      * rewrite <- (setitem_fresh acc y _ Hfresh). apply lookup_setitem_ne.
        intros ->. apply Hyear. by left.
      * intros Hin. apply Hyear. by right.
    + intros year data' s' Hl Hl'. simpl in Hl.
      destruct (decide (y = year)) as [->|Hne].
      * injection Hl as <-. rewrite Hs in Hl'. injection Hl' as <-.
        rewrite (Hother year Hy_items).
        rewrite <- (setitem_fresh acc year _ Hfresh). apply lookup_setitem_eq.
      * by apply Hthis.
Qed.

(** A year without market size makes the loop raise. *)
Lemma market_share_loop_missing (ms : Dict.t Z float) (items : Dataset) (acc : Dict.t Z float) :
  (∃ year, In year (Dict.keys items) ∧ ¬ In year (Dict.keys ms)) →
  (∃ e, market_share_loop ms acc items = inl e)
  ∧ ((∀ year s, In year (Dict.keys items) → Dict.lookup ms year = Some s →
                is_zero (s * 1000) = false) →
     market_share_loop ms acc items = inl KeyError).
Proof.
  revert acc. induction items as [|[y data] items IH]; intros acc (year & Hin & Hmiss).
  - destruct Hin.
  - cbn [market_share_loop]. destruct (Dict.lookup ms y) as [s|] eqn:Hs.
    + destruct (is_zero (s * 1000)) eqn:Hz.
      * rewrite (market_share_step_zero ms acc y data s Hs Hz). cbn [bind].
        split; [by eexists|]. intros Hall. exfalso.
        rewrite (Hall y s) in Hz; [discriminate|by left|exact Hs].
      * rewrite (market_share_step_ok ms acc y data s Hs Hz). cbn [bind].
        assert (Hin' : In year (Dict.keys items)).
        { destruct Hin as [<-|Hin]; [|exact Hin].
          exfalso. apply Hmiss. by apply (lookup_Some_keys ms y s). }
        destruct (IH (Dict.setitem acc y (share_entry s data))) as [He Hk].
        { exists year. by split. }
        split; [exact He|]. intros Hall. apply Hk.
        intros year' s' Hy'. apply Hall. by right.
    + rewrite (market_share_step_missing ms acc y data Hs). cbn [bind].
      split; [by eexists|done].
Qed.

(** C5 (as stated, refuted): the stored share is not the plain quotient.
    For 2012 the script's own data give 2.2 / (1.6 x 1000) x 100, which is
    0.1375 in double precision, and the method stores 0.14. *)
Lemma market_share_is_not_the_plain_quotient :
  ∃ shares s,
    analyze_market_share _create_gaming_revenue_data = inr shares
    ∧ Dict.lookup shares 2012%Z = Some s
    ∧ s = 0.14%float
    ∧ (2.2 / (1.6 * 1000) * 100)%float = 0.1375%float
    ∧ (s =? 2.2 / (1.6 * 1000) * 100)%float = false.
Proof.
  eexists _, _. split; [vm_compute; reflexivity|]. split; [reflexivity|].
  by repeat split.
Qed.

(** C5 (amended): for a data set with distinct years, as long as no market
    size of a year of the data set gives zero when multiplied by 1000:
    when every year of the data set is in the series,
    [analyze_market_share] returns for each year
    revenue / (size x 1000) x 100, computed in double precision and rounded
    to two decimals (the scale 1000 is fixed); when some year of the data
    set is missing from the series it raises [KeyError] and returns
    nothing.  Whatever the sizes, a missing year makes it raise. *)
Theorem market_share_rounded (ms : Dict.t Z float) (d : Dataset) :
  NoDup (Dict.keys d) →
  ((∀ year s, In year (Dict.keys d) → Dict.lookup ms year = Some s →
              is_zero (s * 1000) = false) →
   ((∀ year, In year (Dict.keys d) → In year (Dict.keys ms)) →
    ∃ shares,
      analyze_market_share_with ms d = inr shares
      ∧ Dict.keys shares = Dict.keys d
      ∧ (∀ year data s,
           Dict.lookup d year = Some data → Dict.lookup ms year = Some s →
           Dict.lookup shares year
           = Some (Py.round (revenue data / (s * 1000) * 100) 2)))
   ∧ ((∃ year, In year (Dict.keys d) ∧ ¬ In year (Dict.keys ms)) →
      analyze_market_share_with ms d = inl KeyError))
  ∧ ((∃ year, In year (Dict.keys d) ∧ ¬ In year (Dict.keys ms)) →
     ∃ e, analyze_market_share_with ms d = inl e).
Proof.
  intros Hnd. split.
  - intros Hnz. split.
    + intros Hall.
      destruct (market_share_loop_ok ms d []) as (shares & E & Hk & _ & Hthis).
      { exact Hnd. }
      { intros year Hy. destruct (lookup_In_keys ms year (Hall year Hy)) as [s Hs].
        exists s. split; [exact Hs|]. by apply (Hnz year). }
      exists shares. split; [exact E|]. split; [exact Hk|]. exact Hthis.
    + intros Hmiss.
      destruct (market_share_loop_missing ms d [] Hmiss) as [_ Hk]. by apply Hk.
  - intros Hmiss. by destruct (market_share_loop_missing ms d [] Hmiss) as [He _].
Qed.

Lemma market_share_rounded_witness :
  NoDup (Dict.keys example_dataset)
  ∧ (∃ shares, analyze_market_share_with market_size example_dataset = inr shares
               ∧ Dict.keys shares = [2010; 2011]%Z
               ∧ Dict.lookup shares 2010%Z = Some 0.1%float)
  ∧ analyze_market_share_with short_market example_dataset = inl KeyError.
Proof.
  split; [exact example_years_distinct|].
  destruct (market_share_rounded market_size example_dataset example_years_distinct)
    as [H1 _].
  destruct (market_share_rounded short_market example_dataset example_years_distinct)
    as [H2 _].
  split.
  - destruct H1 as [H1 _].
    { intros year s _ Hs. apply lookup_Some_In in Hs. simpl in Hs.
      repeat (destruct Hs as [Hs|Hs]; [injection Hs as <- <-; reflexivity|]).
      destruct Hs. }
    destruct H1 as (shares & E & Hk & Hl).
    { intros year [<-|[<-|[]]]; simpl; tauto. }
    exists shares. split; [exact E|]. split; [exact Hk|].
    apply (Hl 2010%Z (mkYearData 0.8 15000 12.5 "Lancement") 0.8%float); reflexivity.
  - destruct H2 as [_ H2].
    { intros year s _ Hs. apply lookup_Some_In in Hs. simpl in Hs.
      destruct Hs as [Hs|[]]. injection Hs as <- <-. reflexivity. }
    apply H2. exists 2011%Z. split; [simpl; tauto|].
    simpl. intros [H|[]]. discriminate.
Defined.

(** ** The trend of [generate_comprehensive_report] *)

Lemma getitem_Some {V : Type} (d : Dict.t Z V) (k : Z) (v : V) :
  Dict.lookup d k = Some v → Dict.getitem d k = inr v.
Proof. intros H. unfold Dict.getitem. by rewrite H. Qed.

(** C6 (as stated, refuted): on the two-record example the code does not
    produce 87.5: in double precision 1.5 - 0.8 is 0.7 and 0.7 / 0.8 x 100
    is 87.499999999999986, strictly below 87.5. *)
Lemma growth_example_is_not_87_5 :
  ∃ g, growth example_dataset = inr g
       ∧ g = 87.499999999999986%float
       ∧ (g =? 87.5)%float = false
       ∧ (g <? 87.5)%float = true.
Proof. eexists. split; [vm_compute; reflexivity|]. by repeat split. Qed.

(** C6 (amended): on a non-empty data set the trend is
    (revenue of the last year - revenue of the first year) / revenue of the
    first year x 100, each operation in double precision, the first and last
    year being the least and the greatest year present; it raises
    [ZeroDivisionError] when the first year's revenue is zero.  On the
    two-record example it is 87.499999999999986. *)
Theorem growth_rate :
  (∀ d : Dataset, d ≠ [] →
     ∃ first_year last_year first last,
       In first_year (Dict.keys d) ∧ (∀ y, In y (Dict.keys d) → (first_year ≤ y)%Z)
       ∧ In last_year (Dict.keys d) ∧ (∀ y, In y (Dict.keys d) → (y ≤ last_year)%Z)
       ∧ Dict.lookup d first_year = Some first
       ∧ Dict.lookup d last_year = Some last
       ∧ (is_zero (revenue first) = false →
          growth d = inr ((revenue last - revenue first) / revenue first * 100)%float)
       ∧ (is_zero (revenue first) = true → growth d = inl ZeroDivisionError))
  ∧ growth example_dataset = inr 87.499999999999986%float.
Proof.
  split.
  - intros d Hd.
    assert (Hk : Dict.keys d ≠ []) by (by destruct d).
    destruct (min_spec _ Hk) as (fy & Ef & Hf & Hfmin).
    destruct (max_spec _ Hk) as (ly & El & Hl & Hlmax).
    destruct (lookup_In_keys d fy Hf) as [first Hfirst].
    destruct (lookup_In_keys d ly Hl) as [last Hlast].
    exists fy, ly, first, last. repeat (split; [assumption|]).
    unfold growth. rewrite Ef, El. cbn [bind].
    rewrite (getitem_Some _ _ _ Hlast), (getitem_Some _ _ _ Hfirst). cbn [bind].
    split; intros H0.
    + by rewrite (truediv_nonzero _ _ H0).
    + by rewrite (truediv_zero _ _ H0).
  - vm_compute. reflexivity.
Qed.

Lemma growth_rate_witness :
  example_dataset ≠ [] ∧ zero_start_dataset ≠ []
  ∧ (∃ g, growth example_dataset = inr g)
  ∧ growth zero_start_dataset = inl ZeroDivisionError.
Proof.
  split; [discriminate|]. split; [discriminate|].
  destruct (proj1 growth_rate example_dataset) as (fy & ly & f & l & H); [discriminate|].
  destruct (proj1 growth_rate zero_start_dataset) as (fy' & ly' & f' & l' & H'); [discriminate|].
  split.
  - destruct H as (Hfy & Hmin & _ & _ & Hf & _ & Hnz & _).
    eexists. apply Hnz.
    assert (fy = 2010%Z) as ->.
    { destruct Hfy as [<-|[<-|[]]]; [done|]. specialize (Hmin 2010%Z). simpl in Hmin. lia. }
    simpl in Hf. injection Hf as <-. reflexivity.
  - destruct H' as (Hfy & Hmin & _ & _ & Hf & _ & _ & Hz).
    apply Hz.
    assert (fy' = 2010%Z) as ->.
    { destruct Hfy as [<-|[<-|[]]]; [done|]. specialize (Hmin 2010%Z). simpl in Hmin. lia. }
    simpl in Hf. injection Hf as <-. reflexivity.
Defined.

(** ** The best and the worst year *)

Lemma ltb_leb_trans (x y z : float) :
  (x <? y)%float = true → (y <=? z)%float = true → (x <? z)%float = true.
Proof.
  rewrite FloatAxioms.leb_spec, !FloatAxioms.ltb_spec. unfold SFleb, SFltb. intros H1 H2.
  destruct (SFcompare (Prim2SF x) (Prim2SF y)) as [[]|] eqn:E1; try discriminate.
  destruct (SFcompare (Prim2SF y) (Prim2SF z)) as [[]|] eqn:E2; try discriminate.
  - pose proof (SFcompare_antisym (Prim2SF y) (Prim2SF z)) as Ha. rewrite E2 in Ha.
    simpl in Ha.
    pose proof (SFcompare_antisym (Prim2SF x) (Prim2SF z)) as Hb.
    destruct (SFcompare (Prim2SF x) (Prim2SF z)) as [[]|] eqn:E3; try reflexivity; exfalso.
    + simpl in Hb. pose proof (SFcompare_eq_lt _ _ _ Hb E1) as Hc.
      rewrite Ha in Hc. discriminate.
    + simpl in Hb. pose proof (SFcompare_lt_trans _ _ _ Hb E1) as Hc.
      rewrite Ha in Hc. discriminate.
    + apply SFcompare_None in E3 as [Hn|Hn].
      * rewrite Hn in E1. discriminate.
      * rewrite Hn in E2. destruct (Prim2SF y) as [[]|[]| |[] ? ?]; discriminate.
  - by rewrite (SFcompare_lt_trans _ _ _ E1 E2).
Qed.

(** [max(xs, key=f)] returns the first element whose key is greatest:
    everything before it is strictly below, everything after it is not
    above. *)
Lemma max_key_fold_spec {A : Type} (key : A → float) (xs pre l1 l2 : list A) (m : A) :
  (∀ y, In y (pre ++ xs) → is_nan (key y) = false) →
  pre = l1 ++ m :: l2 →
  (∀ y, In y l1 → (key y <? key m)%float = true) →
  (∀ y, In y l2 → (key y <=? key m)%float = true) →
  ∃ l1' l2',
    let m' := fold_left (fun m y => if (key m <? key y)%float then y else m) xs m in
    pre ++ xs = l1' ++ m' :: l2'
    ∧ (∀ y, In y l1' → (key y <? key m')%float = true)
    ∧ (∀ y, In y l2' → (key y <=? key m')%float = true).
Proof.
  revert pre l1 l2 m. induction xs as [|a xs IH]; intros pre l1 l2 m Hnan Hpre H1 H2.
  - exists l1, l2. simpl. rewrite app_nil_r. auto.
  - simpl. destruct (key m <? key a)%float eqn:E.
    + destruct (IH (pre ++ [a]) pre [] a) as (l1' & l2' & Heq & H1' & H2').
      * intros y Hy. apply Hnan. by rewrite <- app_assoc in Hy.
      * reflexivity.
      * intros y Hy. rewrite Hpre in Hy.
        apply in_app_or in Hy as [Hy|[<-|Hy]].
        -- apply ltb_trans with (key m); auto.
        -- exact E.
        -- apply leb_ltb_trans with (key m); auto.
      * intros y [].
      * exists l1', l2'. rewrite <- app_assoc in Heq. auto.
    + destruct (IH (pre ++ [a]) l1 (l2 ++ [a]) m) as (l1' & l2' & Heq & H1' & H2').
      * intros y Hy. apply Hnan. by rewrite <- app_assoc in Hy.
      * rewrite Hpre, <- app_assoc. reflexivity.
      * exact H1.
      * intros y Hy. apply in_app_or in Hy as [Hy|[<-|[]]]; [auto|].
        apply not_ltb_leb; [| |exact E]; apply Hnan.
        -- rewrite Hpre. apply in_or_app. left. apply in_elt.
        -- apply in_or_app. right. by left.
      * exists l1', l2'. rewrite <- app_assoc in Heq. auto.
Qed.

Lemma min_key_fold_spec {A : Type} (key : A → float) (xs pre l1 l2 : list A) (m : A) :
  (∀ y, In y (pre ++ xs) → is_nan (key y) = false) →
  pre = l1 ++ m :: l2 →
  (∀ y, In y l1 → (key m <? key y)%float = true) →
  (∀ y, In y l2 → (key m <=? key y)%float = true) →
  ∃ l1' l2',
    let m' := fold_left (fun m y => if (key y <? key m)%float then y else m) xs m in
    pre ++ xs = l1' ++ m' :: l2'
    ∧ (∀ y, In y l1' → (key m' <? key y)%float = true)
    ∧ (∀ y, In y l2' → (key m' <=? key y)%float = true).
Proof.
  revert pre l1 l2 m. induction xs as [|a xs IH]; intros pre l1 l2 m Hnan Hpre H1 H2.
  - exists l1, l2. simpl. rewrite app_nil_r. auto.
  - simpl. destruct (key a <? key m)%float eqn:E.
    + destruct (IH (pre ++ [a]) pre [] a) as (l1' & l2' & Heq & H1' & H2').
      * intros y Hy. apply Hnan. by rewrite <- app_assoc in Hy.
      * reflexivity.
      * intros y Hy. rewrite Hpre in Hy.
        apply in_app_or in Hy as [Hy|[<-|Hy]].
        -- apply ltb_trans with (key m); auto.
        -- exact E.
        -- apply ltb_leb_trans with (key m); auto.
      * intros y [].
      * exists l1', l2'. rewrite <- app_assoc in Heq. auto.
    + destruct (IH (pre ++ [a]) l1 (l2 ++ [a]) m) as (l1' & l2' & Heq & H1' & H2').
      * intros y Hy. apply Hnan. by rewrite <- app_assoc in Hy.
      * rewrite Hpre, <- app_assoc. reflexivity.
      * exact H1.
      * intros y Hy. apply in_app_or in Hy as [Hy|[<-|[]]]; [auto|].
        apply not_ltb_leb; [| |exact E]; apply Hnan.
        -- apply in_or_app. right. by left.
        -- rewrite Hpre. apply in_or_app. left. apply in_elt.
      * exists l1', l2'. rewrite <- app_assoc in Heq. auto.
Qed.

Lemma max_key_spec {A : Type} (key : A → float) (xs : list A) :
  xs ≠ [] → (∀ y, In y xs → is_nan (key y) = false) →
  ∃ l1 m l2,
    Py.max_key key xs = inr m ∧ xs = l1 ++ m :: l2
    ∧ (∀ y, In y l1 → (key y <? key m)%float = true)
    ∧ (∀ y, In y l2 → (key y <=? key m)%float = true).
Proof.
  destruct xs as [|x xs]; [done|]. intros _ Hnan.
  destruct (max_key_fold_spec key xs [x] [] [] x) as (l1 & l2 & Heq & H1 & H2);
    [exact Hnan|done|intros ? []|intros ? []|].
  eexists l1, _, l2. split; [reflexivity|]. auto.
Qed.

Lemma min_key_spec {A : Type} (key : A → float) (xs : list A) :
  xs ≠ [] → (∀ y, In y xs → is_nan (key y) = false) →
  ∃ l1 m l2,
    Py.min_key key xs = inr m ∧ xs = l1 ++ m :: l2
    ∧ (∀ y, In y l1 → (key m <? key y)%float = true)
    ∧ (∀ y, In y l2 → (key m <=? key y)%float = true).
Proof.
  destruct xs as [|x xs]; [done|]. intros _ Hnan.
  destruct (min_key_fold_spec key xs [x] [] [] x) as (l1 & l2 & Heq & H1 & H2);
    [exact Hnan|done|intros ? []|intros ? []|].
  eexists l1, _, l2. split; [reflexivity|]. auto.
Qed.

(** In a data set ordered by year, what comes later has a later year. *)
Lemma sorted_years_after (l1 l2 : Dataset) (m : Z * YearData) :
  StronglySorted Z.lt (Dict.keys (l1 ++ m :: l2)) →
  ∀ x, In x l2 → (fst m < fst x)%Z.
Proof.
  induction l1 as [|a l1 IH]; simpl; intros Hs x Hx.
  - apply StronglySorted_inv in Hs as [_ Hall].
    rewrite Forall_forall in Hall. apply Hall. apply list_elem_of_In. by apply in_map.
  - apply StronglySorted_inv in Hs as [Hs _]. by apply IH.
Qed.

(** C9 (as stated, refuted): among the years that share the extreme revenue
    the code does not choose the earliest year but the one that comes first
    in the dictionary.  With the records in the order 2012, 2011, 2013, 2010
    (2012 and 2011 share the greatest revenue, 2013 and 2010 the least) the
    best year is 2012 and the worst is 2013, while 2011 and 2010 are
    earlier and have the same revenue. *)
Lemma best_worst_tie_follows_dictionary_order :
  ∃ b w b' w',
    best_year tied_unordered_dataset = inr (2012%Z, b)
    ∧ worst_year tied_unordered_dataset = inr (2013%Z, w)
    ∧ Dict.lookup tied_unordered_dataset 2011%Z = Some b'
    ∧ (revenue b' =? revenue b)%float = true
    ∧ Dict.lookup tied_unordered_dataset 2010%Z = Some w'
    ∧ (revenue w' =? revenue w)%float = true
    ∧ (2011 < 2012)%Z ∧ (2010 < 2013)%Z.
Proof.
  eexists _, _, _, _.
  split; [vm_compute; reflexivity|]. split; [vm_compute; reflexivity|].
  split; [reflexivity|]. split; [reflexivity|].
  split; [reflexivity|]. split; [reflexivity|]. lia.
Qed.

(** C9 (amended): on every non-empty data set without a nan revenue, the
    best year is a record of greatest revenue and the worst year a record
    of least revenue, and among the records that share the extreme revenue
    the first in the order of the dictionary is returned: every record
    before the best one has a strictly smaller revenue, every record before
    the worst one a strictly greater revenue.  When the dictionary is in
    year order (as the script's own is) this is the earliest such year.  On
    the two-record example the best year is 2011 and the worst is 2010. *)
Theorem best_worst_year :
  (∀ d : Dataset, d ≠ [] →
     (∀ x, In x d → is_nan (revenue (snd x)) = false) →
     ∃ best worst b1 b2 w1 w2,
       best_year d = inr best ∧ worst_year d = inr worst
       ∧ d = b1 ++ best :: b2 ∧ d = w1 ++ worst :: w2
       ∧ (∀ x, In x d → (revenue (snd x) <=? revenue (snd best))%float = true)
       ∧ (∀ x, In x b1 → (revenue (snd x) <? revenue (snd best))%float = true)
       ∧ (∀ x, In x d → (revenue (snd worst) <=? revenue (snd x))%float = true)
       ∧ (∀ x, In x w1 → (revenue (snd worst) <? revenue (snd x))%float = true)
       ∧ (StronglySorted Z.lt (Dict.keys d) →
          (∀ x, In x d → (revenue (snd x) =? revenue (snd best))%float = true →
                (fst best ≤ fst x)%Z)
          ∧ (∀ x, In x d → (revenue (snd x) =? revenue (snd worst))%float = true →
                  (fst worst ≤ fst x)%Z)))
  ∧ (∃ b w, best_year example_dataset = inr (2011%Z, b)
            ∧ worst_year example_dataset = inr (2010%Z, w)).
Proof.
  split; [|eexists _, _; split; vm_compute; reflexivity].
  intros d Hd Hnan.
  destruct (max_key_spec (fun x : Z * YearData => revenue (snd x)) d Hd Hnan)
    as (b1 & best & b2 & Eb & Hdb & Hb1 & Hb2).
  destruct (min_key_spec (fun x : Z * YearData => revenue (snd x)) d Hd Hnan)
    as (w1 & worst & w2 & Ew & Hdw & Hw1 & Hw2).
  assert (Hbest : In best d) by (rewrite Hdb; apply in_elt).
  assert (Hworst : In worst d) by (rewrite Hdw; apply in_elt).
  exists best, worst, b1, b2, w1, w2.
  split; [exact Eb|]. split; [exact Ew|].
  split; [exact Hdb|]. split; [exact Hdw|].
  split.
  { intros x Hin. rewrite Hdb in Hin.
    apply in_app_or in Hin as [Hin|[<-|Hin]].
    - apply ltb_leb. by apply Hb1.
    - apply leb_refl. by apply Hnan.
    - by apply Hb2. }
  split; [exact Hb1|].
  split.
  { intros x Hin. rewrite Hdw in Hin.
    apply in_app_or in Hin as [Hin|[<-|Hin]].
    - apply ltb_leb. by apply Hw1.
    - apply leb_refl. by apply Hnan.
    - by apply Hw2. }
  split; [exact Hw1|].
  intros Hsorted. split.
  - intros x Hin Heq. rewrite Hdb in Hin, Hsorted.
    apply in_app_or in Hin as [Hin|[<-|Hin]].
    + rewrite (ltb_not_eqb _ _ (Hb1 _ Hin)) in Heq. discriminate.
    + lia.
    + pose proof (sorted_years_after _ _ _ Hsorted _ Hin). lia.
  - intros x Hin Heq. rewrite Hdw in Hin, Hsorted.
    apply in_app_or in Hin as [Hin|[<-|Hin]].
    + rewrite (ltb_not_eqb_sym _ _ (Hw1 _ Hin)) in Heq. discriminate.
    + lia.
    + pose proof (sorted_years_after _ _ _ Hsorted _ Hin). lia.
Qed.

Lemma tied_dataset_no_nan :
  ∀ x, In x tied_dataset → is_nan (revenue (snd x)) = false.
Proof. intros x [<-|[<-|[<-|[<-|[]]]]]; reflexivity. Defined.

Lemma best_worst_year_witness :
  tied_dataset ≠ []
  ∧ (∀ x, In x tied_dataset → is_nan (revenue (snd x)) = false)
  ∧ StronglySorted Z.lt (Dict.keys tied_dataset)
  ∧ ∃ best worst,
      best_year tied_dataset = inr best ∧ worst_year tied_dataset = inr worst
      ∧ fst best = 2011%Z ∧ fst worst = 2010%Z
      ∧ (fst best ≤ 2012)%Z ∧ (fst worst ≤ 2013)%Z.
Proof.
  assert (Hs : StronglySorted Z.lt (Dict.keys tied_dataset)).
  { repeat constructor. }
  split; [discriminate|]. split; [exact tied_dataset_no_nan|]. split; [exact Hs|].
  destruct (proj1 best_worst_year tied_dataset)
    as (best & worst & b1 & b2 & w1 & w2 & Eb & Ew & _ & _ & _ & _ & _ & _ & Hsort);
    [discriminate|exact tied_dataset_no_nan|].
  destruct (Hsort Hs) as [Hb Hw].
  exists best, worst. split; [exact Eb|]. split; [exact Ew|].
  assert (Eb' : inr best = best_year tied_dataset) by (by rewrite Eb).
  assert (Ew' : inr worst = worst_year tied_dataset) by (by rewrite Ew).
  vm_compute in Eb', Ew'. injection Eb' as ->. injection Ew' as ->.
  split; [reflexivity|]. split; [reflexivity|]. split.
  - apply (Hb (2012%Z, mkYearData 2.0 30 2.0 "Pic")); [simpl; tauto|reflexivity].
  - apply (Hw (2013%Z, mkYearData 1.0 40 1.0 "Declin")); [simpl; tauto|reflexivity].
Defined.

(** ** The store *)

Lemma contents_cons (year : Z) (r : ref) (d : Dict.t Z ref) (h : heap)
    (x : YearData) (rest : Dataset) :
  h !! r = Some x → contents d h = inr rest →
  contents ((year, r) :: d) h = inr ((year, x) :: rest).
Proof.
  intros Hr Hd. cbn [contents]. unfold load. rewrite Hr. cbn [bind ret fst].
  rewrite Hd. reflexivity.
Qed.

Lemma contents_cons_inv (year : Z) (r : ref) (d : Dict.t Z ref) (h : heap)
    (data : Dataset) :
  contents ((year, r) :: d) h = inr data →
  ∃ x rest, h !! r = Some x ∧ contents d h = inr rest ∧ data = (year, x) :: rest.
Proof.
  cbn [contents]. unfold load.
  destruct (h !! r) as [x|]; [|discriminate]. cbn [bind ret fst].
  destruct (contents d h) as [e|rest]; [discriminate|]. cbn [bind ret].
  intros [= <-]. by exists x, rest.
Qed.

(** Writing to an object a dictionary does not refer to leaves what the
    dictionary holds unchanged. *)
Lemma contents_insert_other (d : Dict.t Z ref) (h : heap) (r : ref) (x : YearData) :
  ¬ In r (Dict.values d) → contents d (<[r := x]> h) = contents d h.
Proof.
  induction d as [|[y r0] d IH]; intros Hr; [done|].
  cbn [contents]. unfold load.
  rewrite list_lookup_insert_ne by (intros ->; apply Hr; by left).
  rewrite IH by (intros Hin; apply Hr; by right).
  by destruct (h !! r0).
Qed.

(** Writing to the object of a year replaces that year's record. *)
Lemma contents_insert (d : Dict.t Z ref) (h : heap) (data : Dataset)
    (year : Z) (r : ref) (x : YearData) :
  NoDup (Dict.values d) → contents d h = inr data → Dict.lookup d year = Some r →
  contents d (<[r := x]> h) = inr (Dict.setitem data year x).
Proof.
  revert data. induction d as [|[y0 r0] d IH]; intros data Hnd Hc Hl; [done|].
  apply contents_cons_inv in Hc as (x0 & rest & Hr0 & Hrest & ->).
  simpl in Hnd. apply NoDup_cons in Hnd as [Hr0_fresh Hnd].
  rewrite list_elem_of_In in Hr0_fresh.
  cbn [Dict.lookup] in Hl. cbn [Dict.setitem].
  destruct (decide (y0 = year)) as [->|Hne].
  - injection Hl as <-. apply contents_cons.
    + apply list_lookup_insert_eq. by apply lookup_lt_Some in Hr0.
    + by rewrite contents_insert_other.
  - apply contents_cons.
    + rewrite list_lookup_insert_ne; [done|]. intros ->. apply Hr0_fresh.
      apply lookup_Some_In in Hl. change r0 with (snd (year, r0)). by apply in_map.
    + by apply IH.
Qed.

(** Each year's record in the contents is the object the year's reference
    points to. *)
Lemma contents_lookup (d : Dict.t Z ref) (h : heap) (data : Dataset) (year : Z) :
  contents d h = inr data →
  match Dict.lookup d year with
  | Some r => ∃ x, h !! r = Some x ∧ Dict.lookup data year = Some x
  | None => Dict.lookup data year = None
  end.
Proof.
  revert data. induction d as [|[y r] d IH]; intros data Hc.
  - by injection Hc as <-.
  - apply contents_cons_inv in Hc as (x & rest & Hr & Hrest & ->).
    cbn [Dict.lookup]. destruct (decide (y = year)); [by exists x|by apply IH].
Qed.

Lemma contents_keys (d : Dict.t Z ref) (h : heap) (data : Dataset) :
  contents d h = inr data → Dict.keys data = Dict.keys d.
Proof.
  revert data. induction d as [|[y r] d IH]; intros data Hc.
  - by injection Hc as <-.
  - apply contents_cons_inv in Hc as (x & rest & Hr & Hrest & ->).
    simpl. f_equal. by apply IH.
Qed.

(** ** [simulate_scenario] *)

Lemma simulate_step_present_ok (sim : Dict.t Z ref) (year : Z) (m : float)
    (r : ref) (x : YearData) (n : Z) (h : heap) :
  Dict.lookup sim year = Some r → h !! r = Some x →
  scaled_players (players x) m = inr n →
  simulate_step sim (year, m) h = (inr tt, <[r := adjust m x n]> h).
Proof.
  intros Hl Hr Hn. pose proof (lookup_lt_Some _ _ _ Hr) as Hlt.
  unfold simulate_step, Dict.contains, Dict.getitem. rewrite Hl.
  unfold st_bind, lift, load, modify, ret.
  repeat (first [ rewrite Hr
                | rewrite list_lookup_insert_eq by (rewrite ?length_insert; exact Hlt)
                | rewrite Hn ];
          cbn beta iota; cbn [set_revenue set_players players]).
  rewrite !list_insert_insert_eq. reflexivity.
Qed.

Lemma simulate_step_present_err (sim : Dict.t Z ref) (year : Z) (m : float)
    (r : ref) (x : YearData) (e : exn) (h : heap) :
  Dict.lookup sim year = Some r → h !! r = Some x →
  scaled_players (players x) m = inl e →
  simulate_step sim (year, m) h
  = (inl e, <[r := set_revenue (revenue x * m) x]> h).
Proof.
  intros Hl Hr Hn. pose proof (lookup_lt_Some _ _ _ Hr) as Hlt.
  unfold simulate_step, Dict.contains, Dict.getitem. rewrite Hl.
  unfold st_bind, lift, load, modify, ret.
  repeat (first [ rewrite Hr
                | rewrite list_lookup_insert_eq by (rewrite ?length_insert; exact Hlt)
                | rewrite Hn ];
          cbn beta iota; cbn [set_revenue set_players players]).
  reflexivity.
Qed.

Lemma simulate_step_absent (sim : Dict.t Z ref) (year : Z) (m : float) (h : heap) :
  Dict.lookup sim year = None → simulate_step sim (year, m) h = (inr tt, h).
Proof. intros Hl. unfold simulate_step, Dict.contains. by rewrite Hl. Qed.

(** One adjustment on the store is [apply_step] on the contents. *)
Lemma simulate_step_contents (sim : Dict.t Z ref) (item : Z * float)
    (h : heap) (data : Dataset) :
  NoDup (Dict.values sim) → contents sim h = inr data →
  ∃ h', simulate_step sim item h = (fst (apply_step data item), h')
        ∧ contents sim h' = inr (snd (apply_step data item))
        ∧ length h' = length h.
Proof.
  intros Hnd Hc. destruct item as [year m].
  pose proof (contents_lookup sim h data year Hc) as Hl.
  unfold apply_step. cbn [fst snd].
  destruct (Dict.lookup sim year) as [r|] eqn:Er.
  - destruct Hl as (x & Hr & Hx). rewrite Hx.
    destruct (scaled_players (players x) m) as [e|n] eqn:En; cbn [fst snd].
    + eexists. split; [by apply simulate_step_present_err|].
      split; [by apply contents_insert|apply length_insert].
    + eexists. split; [by apply simulate_step_present_ok|].
      split; [by apply contents_insert|apply length_insert].
  - rewrite Hl. exists h. split; [by apply simulate_step_absent|]. by split.
Qed.

Lemma for_each_simulate (sim : Dict.t Z ref) (ms : Dict.t Z float)
    (h : heap) (data : Dataset) :
  NoDup (Dict.values sim) → contents sim h = inr data →
  ∃ h', for_each ms (simulate_step sim) h = (fst (apply_scenario ms data), h')
        ∧ contents sim h' = inr (snd (apply_scenario ms data))
        ∧ length h' = length h.
Proof.
  intros Hnd. revert h data. induction ms as [|item ms IH]; intros h data Hc.
  - exists h. by repeat split.
  - destruct (simulate_step_contents sim item h data Hnd Hc) as (h1 & E1 & Hc1 & Hlen1).
    cbn [for_each apply_scenario]. unfold st_bind. rewrite E1.
    destruct (apply_step data item) as [[e|[]] data1]; cbn [fst snd] in *.
    + exists h1. by repeat split.
    + destruct (IH h1 _ Hc1) as (h' & E' & Hc' & Hlen').
      exists h'. split; [exact E'|]. split; [exact Hc'|congruence].
Qed.

(** The call on the store is [apply_scenario] on the contents; the returned
    dictionary refers to the very objects of [base_data]. *)
Lemma simulate_scenario_contents (self : GamingScenarioSimulator) (name : string)
    (parameters : Dict.t string (Dict.t Z float)) (h : heap) (data : Dataset) :
  NoDup (Dict.values (base_data self)) → contents (base_data self) h = inr data →
  ∃ h', simulate_scenario self name parameters h
        = (match fst (apply_scenario (Dict.get parameters "revenue_multipliers" []) data) with
           | inr _ => inr (base_data self)
           | inl e => inl e
           end, h')
        ∧ contents (base_data self) h'
          = inr (snd (apply_scenario (Dict.get parameters "revenue_multipliers" []) data))
        ∧ length h' = length h.
Proof.
  intros Hnd Hc.
  destruct (for_each_simulate (base_data self)
              (Dict.get parameters "revenue_multipliers" []) h data Hnd Hc)
    as (h' & E & Hc' & Hlen).
  exists h'. split; [|by split].
  unfold simulate_scenario, Dict.copy, Dict.items, st_bind. rewrite E.
  by destruct (fst (apply_scenario _ data)).
Qed.

(** Adjustments for years the dictionary does not have are skipped. *)
Lemma for_each_known_years (sim : Dict.t Z ref) (ms : Dict.t Z float) (h : heap) :
  for_each (known_years sim ms) (simulate_step sim) h
  = for_each ms (simulate_step sim) h.
Proof.
  revert h. induction ms as [|[year m] ms IH]; intros h; [done|].
  unfold known_years in *. cbn [List.filter fst].
  destruct (Dict.contains sim year) eqn:E.
  - cbn [for_each]. unfold st_bind.
    destruct (simulate_step sim (year, m) h) as [[e|[]] h1]; [done|apply IH].
  - cbn [for_each]. unfold st_bind, simulate_step. rewrite E. apply IH.
Qed.

(** ** [apply_scenario] on the contents *)

Lemma keys_apply_step (data : Dataset) (item : Z * float) :
  Dict.keys (snd (apply_step data item)) = Dict.keys data.
Proof.
  unfold apply_step. destruct (Dict.lookup data (fst item)) as [x|] eqn:E; [|done].
  apply lookup_Some_keys in E.
  destruct (scaled_players (players x) (snd item)); by apply keys_setitem_present.
Qed.

Lemma keys_apply_scenario (ms : Dict.t Z float) (data : Dataset) :
  Dict.keys (snd (apply_scenario ms data)) = Dict.keys data.
Proof.
  revert data. induction ms as [|item ms IH]; intros data; [done|].
  cbn [apply_scenario]. pose proof (keys_apply_step data item) as Hk.
  destruct (apply_step data item) as [[e|[]] data1]; cbn [snd] in *; [done|].
  by rewrite IH.
Qed.

Lemma lookup_apply_step_other (data : Dataset) (item : Z * float) (year : Z) :
  fst item ≠ year →
  Dict.lookup (snd (apply_step data item)) year = Dict.lookup data year.
Proof.
  intros Hne. unfold apply_step.
  destruct (Dict.lookup data (fst item)) as [x|]; [|done].
  destruct (scaled_players (players x) (snd item)); by apply lookup_setitem_ne.
Qed.

(** With distinct adjusted years whose player counts are convertible, all
    the adjustments are applied, each to the record the data set had. *)
Lemma apply_scenario_convertible (ms : Dict.t Z float) (data : Dataset) :
  NoDup (Dict.keys ms) → convertible ms data →
  fst (apply_scenario ms data) = inr tt
  ∧ (∀ year x m,
       Dict.lookup data year = Some x → Dict.lookup ms year = Some m →
       ∃ n, scaled_players (players x) m = inr n
            ∧ Dict.lookup (snd (apply_scenario ms data)) year = Some (adjust m x n))
  ∧ (∀ year, Dict.lookup ms year = None →
             Dict.lookup (snd (apply_scenario ms data)) year = Dict.lookup data year).
Proof.
  revert data. induction ms as [|[y m0] ms IH]; intros data Hnd Hconv.
  - split; [done|]. split; [|done]. intros year x m _ Hm. discriminate Hm.
  - simpl in Hnd. apply NoDup_cons in Hnd as [Hy Hnd].
    rewrite list_elem_of_In in Hy.
    assert (Hy' : Dict.lookup ms y = None) by (by apply lookup_None_iff).
    cbn [apply_scenario].
    assert (Hstep : ∃ data1,
               apply_step data (y, m0) = (inr tt, data1)
               ∧ (∀ year, y ≠ year → Dict.lookup data1 year = Dict.lookup data year)
               ∧ (∀ x, Dict.lookup data y = Some x →
                       ∃ n, scaled_players (players x) m0 = inr n
                            ∧ Dict.lookup data1 y = Some (adjust m0 x n))).
    { unfold apply_step. cbn [fst snd].
      destruct (Dict.lookup data y) as [x0|] eqn:Ex0.
      - destruct (Hconv y m0 x0) as [n0 En0]; [by cbn; rewrite decide_True|exact Ex0|].
        rewrite En0. eexists. split; [reflexivity|]. split.
        + intros year Hne. by apply lookup_setitem_ne.
        + intros x [= <-]. exists n0. split; [exact En0|apply lookup_setitem_eq].
      - eexists. split; [reflexivity|]. split; [done|]. intros x Hx. discriminate Hx. }
    destruct Hstep as (data1 & -> & Hother & Hthis).
    destruct (IH data1 Hnd) as (Hok & Hadj & Hkeep).
    { intros year m x Hm Hx.
      assert (Hne : y ≠ year) by (intros ->; congruence).
      apply (Hconv year m x); [by cbn; rewrite decide_False|by rewrite <- Hother]. }
    split; [exact Hok|]. split.
    + intros year x m Hx Hm. cbn [Dict.lookup] in Hm.
      destruct (decide (y = year)) as [<-|Hne].
      * injection Hm as <-. destruct (Hthis x Hx) as (n & En & Hl).
        exists n. split; [exact En|]. by rewrite (Hkeep y Hy').
      * apply Hadj; [by rewrite Hother|exact Hm].
    + intros year Hm. cbn [Dict.lookup] in Hm.
      destruct (decide (y = year)) as [|Hne]; [done|].
      rewrite (Hkeep year Hm). by apply Hother.
Qed.

(** An exception comes from the player count of a year the data set has. *)
Lemma apply_scenario_error (ms : Dict.t Z float) (data : Dataset) (e : exn) :
  fst (apply_scenario ms data) = inl e →
  ∃ year m p,
    In (year, m) ms ∧ In year (Dict.keys data) ∧ scaled_players p m = inl e.
Proof.
  revert data. induction ms as [|[y m0] ms IH]; intros data He; [discriminate|].
  cbn [apply_scenario] in He.
  pose proof (keys_apply_step data (y, m0)) as Hk.
  destruct (apply_step data (y, m0)) as [[e1|[]] data1] eqn:Es; cbn [fst snd] in *.
  - injection He as ->. unfold apply_step in Es. cbn [fst snd] in Es.
    destruct (Dict.lookup data y) as [x|] eqn:Ex; [|discriminate].
    destruct (scaled_players (players x) m0) as [e'|n] eqn:En; [|discriminate].
    injection Es as -> _. exists y, m0, (players x).
    split; [by left|]. split; [by apply (lookup_Some_keys data y x)|exact En].
  - destruct (IH data1 He) as (year & m & p & Hin & Hyear & Hp).
    exists year, m, p. split; [by right|]. split; [by rewrite <- Hk|exact Hp].
Qed.

(** Adjustments for years the data set does not have change nothing. *)
Lemma apply_scenario_unknown_years (ms : Dict.t Z float) (data : Dataset) :
  (∀ year, In year (Dict.keys ms) → ¬ In year (Dict.keys data)) →
  apply_scenario ms data = (inr tt, data).
Proof.
  induction ms as [|[y m] ms IH]; intros Hall; [done|].
  cbn [apply_scenario]. unfold apply_step. cbn [fst snd].
  assert (E : Dict.lookup data y = None).
  { apply lookup_None_iff. apply Hall. by left. }
  rewrite E. apply IH. intros year Hy. apply Hall. by right.
Qed.

(** The only exceptions of [int(players * multiplier)]. *)
Lemma scaled_players_errors (p : Z) (m : float) (e : exn) :
  scaled_players p m = inl e → e = OverflowError ∨ e = ValueError.
Proof.
  unfold scaled_players, Py.to_float, Py.int.
  destruct (is_infinity (Py.of_int p)); cbn [bind raise ret].
  - intros [= <-]. by left.
  - destruct (Prim2SF (Py.of_int p * m)); intros [= <-]; auto.
Qed.

(** [int] is the floor on a float that is not negative. *)
Lemma int_floor_nonneg (y : float) (n : Z) :
  Py.int y = inr n → (0 <=? y)%float = true → Py.floor y = inr n.
Proof.
  unfold Py.int, Py.floor. rewrite FloatAxioms.leb_spec.
  change (Prim2SF 0) with (S754_zero false).
  destruct (Prim2SF y) as [s|s| |s m e]; try done.
  destruct s; [discriminate|]. intros Hn _.
  destruct e as [|e|e]; try exact Hn.
  rewrite Z.shiftr_div_pow2 in Hn by lia. exact Hn.
Qed.

(** ** The constructors *)

(** The display allocates one object per record after the existing ones;
    read back, the dictionary holds the records it was built from. *)
Lemma dict_display_spec (data : Dataset) (h0 : heap) :
  ∃ d, dict_display data h0 = (inr d, h0 ++ Dict.values data)
       ∧ (∀ tail, contents d (h0 ++ Dict.values data ++ tail) = inr data)
       ∧ NoDup (Dict.values d)
       ∧ (∀ r, In r (Dict.values d) → length h0 ≤ r).
Proof.
  revert h0. induction data as [|[y x] data IH]; intros h0.
  - exists []. simpl. rewrite app_nil_r. repeat split; try done. apply NoDup_nil_2.
  - destruct (IH (h0 ++ [x])) as (d & E & Hc & Hnd & Hge).
    exists ((y, length h0) :: d). split.
    { cbn [dict_display]. unfold st_bind, alloc, st_ret, ret.
      rewrite E. by rewrite <- app_assoc. }
    split.
    { intros tail. apply contents_cons.
      - simpl. apply list_lookup_middle. reflexivity.
      - specialize (Hc tail). by rewrite <- app_assoc in Hc. }
    split.
    { simpl. apply NoDup_cons. split; [|exact Hnd].
      rewrite list_elem_of_In. intros Hin. apply Hge in Hin.
      rewrite length_app in Hin. simpl in Hin. lia. }
    intros r [<-|Hin]; [simpl; lia|].
    apply Hge in Hin. rewrite length_app in Hin. simpl in Hin. lia.
Qed.

(** The whole run: the analyser starts with the given records; when no
    exception stops the scenario it returns the adjusted records, and
    afterwards the analyser holds the adjusted records too. *)
Lemma run_scenario_spec (data : Dataset) (name : string)
    (parameters : Dict.t string (Dict.t Z float)) (h0 : heap) :
  ∃ h,
    run_scenario data name parameters h0
    = (match fst (apply_scenario (Dict.get parameters "revenue_multipliers" []) data) with
       | inr _ =>
           inr (mkOutcome data
                  (snd (apply_scenario (Dict.get parameters "revenue_multipliers" []) data))
                  (snd (apply_scenario (Dict.get parameters "revenue_multipliers" []) data)))
       | inl e => inl e
       end, h).
Proof.
  destruct (dict_display_spec data h0) as (d & Ed & Hc & Hnd & _).
  specialize (Hc []). rewrite app_nil_r in Hc.
  destruct (simulate_scenario_contents (mkSimulator d) name parameters _ data Hnd Hc)
    as (h' & Es & Hc' & _).
  cbn [base_data] in Es, Hc'.
  exists h'.
  unfold run_scenario, SkyrockGamingAnalyzer_init, GamingScenarioSimulator_init,
    analyzer_contents, read, Dict.copy, st_bind, st_ret, ret.
  rewrite Ed. cbn [gaming_data]. rewrite Hc. rewrite Es.
  destruct (fst (apply_scenario _ data)) as [e|[]]; [reflexivity|].
  rewrite Hc'. reflexivity.
Qed.

(** ** The scenario claims *)

Lemma scaled_players_int (p : Z) (m : float) (n : Z) :
  scaled_players p m = inr n → Py.int (Py.of_int p * m) = inr n.
Proof.
  unfold scaled_players, Py.to_float.
  by destruct (is_infinity (Py.of_int p)).
Qed.

Lemma example_simulator_wf :
  NoDup (Dict.values (base_data example_simulator))
  ∧ contents (base_data example_simulator) example_store = inr example_dataset.
Proof.
  split; [|reflexivity].
  repeat (apply NoDup_cons_2; [rewrite list_elem_of_In; simpl; intuition discriminate|]).
  apply NoDup_nil_2.
Defined.

(** C1 (the code breaks it): the script's own run.  The analyser starts
    with the built-in records; after [simulate_scenario] with the script's
    multipliers the analyser's own record for 2014 has revenue 5.25, players
    102000 and bets 102.75 instead of 3.5, 68000 and 68.5, and the analyser's
    data are the returned data: [dict.copy()] copied the outer dictionary
    only and the records are shared. *)
Theorem scenario_overwrites_the_analyzer_data :
  ∃ o h x,
    run_scenario _create_gaming_revenue_data "Investissement renforce"
                 scenario_investissement [] = (inr o, h)
    ∧ before o = _create_gaming_revenue_data
    ∧ Dict.lookup (before o) 2014%Z = Some (mkYearData 3.5 68000 68.5 "Pic")
    ∧ Dict.lookup (after o) 2014%Z = Some x
    ∧ revenue x = 5.25%float ∧ players x = 102000%Z ∧ bets x = 102.75%float
    ∧ after o = scenario_data o.
Proof.
  eexists _, _, _. split; [vm_compute; reflexivity|].
  cbn [before after scenario_data].
  split; [reflexivity|]. split; [reflexivity|]. split; [reflexivity|].
  by repeat split.
Qed.

(** C2 (as stated, refuted): a positive multiplier does not always give a
    result, and the player count is not always the truncation of the
    product.  With multiplier 1e305 on 2010 of the example the call raises
    [OverflowError] ([int] of an infinite product) after the revenue of 2010
    has been overwritten, the players and the bets being left as they were.
    With 3 players and the double nearest to 1/3 the exact product is below
    1, its truncation is 0, and the code gives 1: the product is rounded to
    a double before it is truncated. *)
Lemma positive_multiplier_breaks_the_scaling :
  (0 <? 1e305)%float = true
  ∧ (∃ h x,
       run_scenario example_dataset "huge" huge_2010 [] = (inl OverflowError, h)
       ∧ h !! 0 = Some x
       ∧ revenue x = (0.8 * 1e305)%float
       ∧ (revenue x =? 0.8)%float = false
       ∧ players x = 15000%Z ∧ bets x = 12.5%float)
  ∧ (0 <? 1 / 3)%float = true
  ∧ scaled_players 3 (1 / 3) = inr 1%Z
  ∧ ∃ mant p, Prim2SF (1 / 3) = S754_finite false mant (Zneg p)
              ∧ (3 * Zpos mant < 2 ^ Zpos p)%Z.
Proof.
  split; [reflexivity|]. split.
  { eexists _, _. split; [vm_compute; reflexivity|].
    split; [reflexivity|]. by repeat split. }
  split; [reflexivity|]. split; [vm_compute; reflexivity|].
  eexists _, _. split; [vm_compute; reflexivity|]. reflexivity.
Qed.

(** C2 (amended): when the years of the adjustment map are distinct and,
    for each adjusted year of the data set, [int(players * multiplier)]
    raises nothing, [simulate_scenario] returns, for each such year, the
    revenue and the bets multiplied by the multiplier in double precision,
    and the players converted to a double, multiplied in double precision
    and truncated toward zero (the floor when the product is not negative),
    the type unchanged; every other year keeps its record.  The sign of the
    multipliers plays no part.  The original values are those in the store
    when the call starts. *)
Theorem scenario_scales_the_adjusted_years
    (self : GamingScenarioSimulator) (name : string)
    (parameters : Dict.t string (Dict.t Z float)) (h : heap) (data : Dataset) :
  NoDup (Dict.values (base_data self)) →
  contents (base_data self) h = inr data →
  NoDup (Dict.keys (Dict.get parameters "revenue_multipliers" [])) →
  (∀ year m x,
     Dict.lookup (Dict.get parameters "revenue_multipliers" []) year = Some m →
     Dict.lookup data year = Some x →
     ∃ n, scaled_players (players x) m = inr n) →
  ∃ sim h' data',
    simulate_scenario self name parameters h = (inr sim, h')
    ∧ contents sim h' = inr data'
    ∧ (∀ year x m,
         Dict.lookup data year = Some x →
         Dict.lookup (Dict.get parameters "revenue_multipliers" []) year = Some m →
         ∃ x' n, Dict.lookup data' year = Some x'
               ∧ revenue x' = (revenue x * m)%float
               ∧ bets x' = (bets x * m)%float
               ∧ Py.int (Py.of_int (players x) * m) = inr n
               ∧ players x' = n
               ∧ ((0 <=? Py.of_int (players x) * m)%float = true →
                  Py.floor (Py.of_int (players x) * m) = inr n)
               ∧ type x' = type x)
    ∧ (∀ year x,
         Dict.lookup data year = Some x →
         Dict.lookup (Dict.get parameters "revenue_multipliers" []) year = None →
         Dict.lookup data' year = Some x).
Proof.
  intros Hnd Hc Hms Hconv.
  destruct (simulate_scenario_contents self name parameters h data Hnd Hc)
    as (h' & E & Hc' & _).
  set (ms := Dict.get parameters "revenue_multipliers" []) in *.
  destruct (apply_scenario_convertible ms data Hms Hconv) as (Hok & Hadj & Hkeep).
  rewrite Hok in E.
  exists (base_data self), h', (snd (apply_scenario ms data)).
  split; [exact E|]. split; [exact Hc'|]. split.
  - intros year x m Hx Hm. destruct (Hadj year x m Hx Hm) as (n & En & Hl).
    exists (adjust m x n), n. split; [exact Hl|].
    cbn [adjust revenue bets players type].
    split; [reflexivity|]. split; [reflexivity|].
    pose proof (scaled_players_int _ _ _ En) as Hi.
    split; [exact Hi|]. split; [reflexivity|].
    split; [by apply int_floor_nonneg|reflexivity].
  - intros year x Hx Hm. by rewrite (Hkeep year Hm).
Qed.

Lemma scenario_scales_the_adjusted_years_witness :
  NoDup (Dict.values (base_data example_simulator))
  ∧ contents (base_data example_simulator) example_store = inr example_dataset
  ∧ NoDup (Dict.keys (Dict.get double_2010 "revenue_multipliers" []))
  ∧ ∃ sim h' data',
      simulate_scenario example_simulator "double" double_2010 example_store = (inr sim, h')
      ∧ contents sim h' = inr data'
      ∧ (∃ x', Dict.lookup data' 2010%Z = Some x'
               ∧ revenue x' = 1.6%float ∧ players x' = 30000%Z ∧ bets x' = 25.0%float)
      ∧ Dict.lookup data' 2011%Z = Dict.lookup example_dataset 2011%Z.
Proof.
  destruct example_simulator_wf as [Hnd Hc].
  assert (Hms : NoDup (Dict.keys (Dict.get double_2010 "revenue_multipliers" []))).
  { apply NoDup_cons_2; [rewrite list_elem_of_In; simpl; tauto|apply NoDup_nil_2]. }
  split; [exact Hnd|]. split; [exact Hc|]. split; [exact Hms|].
  destruct (scenario_scales_the_adjusted_years example_simulator "double" double_2010
              example_store example_dataset Hnd Hc Hms)
    as (sim & h' & data' & E & Hc' & Hadj & Hkeep).
  { intros year m x Hm Hx. apply lookup_Some_In in Hm, Hx.
    destruct Hm as [[= <- <-]|[]].
    destruct Hx as [[= <-]|[[=]|[]]].
    exists 30000%Z. vm_compute. reflexivity. }
  exists sim, h', data'. split; [exact E|]. split; [exact Hc'|]. split.
  - destruct (Hadj 2010%Z (mkYearData 0.8 15000 12.5 "Lancement") 2.0%float)
      as (x' & n & Hx' & Hrev & Hbets & Hint & Hp & _); [reflexivity|reflexivity|].
    exists x'. split; [exact Hx'|].
    split; [exact Hrev|]. split; [|exact Hbets].
    rewrite Hp. assert (Hn : inr n = inr 30000%Z :> result Z).
    { rewrite <- Hint. vm_compute. reflexivity. }
    by injection Hn.
  - apply Hkeep; reflexivity.
Defined.

(** C10: adjustments for years the data set does not have are ignored.  The
    call has the outcome it has with these adjustments removed; it creates no
    object, leaves [base_data] with the years it had, and when it returns it
    returns the dictionary with the years of [base_data].  An exception, if
    any, comes from converting the player count of a year the data set has;
    with distinct adjusted years whose player counts are convertible there
    is none.  When no adjusted year is in the data set, the call returns and
    nothing changes at all. *)
Theorem scenario_ignores_unknown_years
    (self : GamingScenarioSimulator) (name : string)
    (parameters : Dict.t string (Dict.t Z float)) (h : heap) (data : Dataset) :
  NoDup (Dict.values (base_data self)) →
  contents (base_data self) h = inr data →
  ∃ r h' data',
    simulate_scenario self name parameters h = (r, h')
    ∧ simulate_scenario self name
        [("revenue_multipliers",
          known_years (base_data self) (Dict.get parameters "revenue_multipliers" []))] h
      = (r, h')
    ∧ contents (base_data self) h' = inr data'
    ∧ Dict.keys data' = Dict.keys data
    ∧ length h' = length h
    ∧ (∀ year, ¬ In year (Dict.keys data) → Dict.lookup data' year = None)
    ∧ (∀ sim, r = inr sim →
              sim = base_data self ∧ Dict.keys sim = Dict.keys data)
    ∧ (∀ e, r = inl e →
            ∃ year m p,
              In (year, m) (Dict.get parameters "revenue_multipliers" [])
              ∧ In year (Dict.keys data)
              ∧ scaled_players p m = inl e)
    ∧ (NoDup (Dict.keys (Dict.get parameters "revenue_multipliers" [])) →
       (∀ year m x,
          Dict.lookup (Dict.get parameters "revenue_multipliers" []) year = Some m →
          Dict.lookup data year = Some x →
          ∃ n, scaled_players (players x) m = inr n) →
       r = inr (base_data self))
    ∧ ((∀ year, In year (Dict.keys (Dict.get parameters "revenue_multipliers" [])) →
                ¬ In year (Dict.keys data)) →
       r = inr (base_data self) ∧ data' = data).
Proof.
  intros Hnd Hc.
  destruct (simulate_scenario_contents self name parameters h data Hnd Hc)
    as (h' & E & Hc' & Hlen).
  set (ms := Dict.get parameters "revenue_multipliers" []) in *.
  eexists _, h', (snd (apply_scenario ms data)).
  split; [exact E|]. split.
  { etransitivity; [|exact E].
    unfold simulate_scenario, st_bind, Dict.items.
    change (Dict.get [("revenue_multipliers", known_years (base_data self) ms)]
                     "revenue_multipliers" [])
      with (known_years (base_data self) ms).
    unfold Dict.copy. rewrite for_each_known_years. reflexivity. }
  split; [exact Hc'|].
  split; [apply keys_apply_scenario|]. split; [exact Hlen|]. split.
  { intros year Hy. apply lookup_None_iff. by rewrite keys_apply_scenario. }
  split.
  { intros sim Hsim. destruct (fst (apply_scenario ms data)); [discriminate|].
    injection Hsim as <-. split; [reflexivity|]. symmetry. by apply (contents_keys _ h). }
  split.
  { intros e He. apply (apply_scenario_error ms data e).
    destruct (fst (apply_scenario ms data)); [by injection He as ->|discriminate]. }
  split.
  { intros Hms Hconv.
    destruct (apply_scenario_convertible ms data Hms Hconv) as (Hok & _).
    by rewrite Hok. }
  intros Hall. rewrite (apply_scenario_unknown_years ms data Hall). by split.
Qed.

Lemma scenario_ignores_unknown_years_witness :
  NoDup (Dict.values (base_data example_simulator))
  ∧ contents (base_data example_simulator) example_store = inr example_dataset
  ∧ (∃ sim h' data',
       simulate_scenario example_simulator "mixed" double_2010_and_unknown example_store
       = (inr sim, h')
       ∧ simulate_scenario example_simulator "mixed" double_2010 example_store
         = (inr sim, h')
       ∧ contents sim h' = inr data'
       ∧ Dict.keys data' = [2010; 2011]%Z
       ∧ length h' = 2)
  ∧ (∃ h',
       simulate_scenario example_simulator "unknown" only_unknown example_store
       = (inr (base_data example_simulator), h')
       ∧ contents (base_data example_simulator) h' = inr example_dataset).
Proof.
  destruct example_simulator_wf as [Hnd Hc].
  split; [exact Hnd|]. split; [exact Hc|]. split.
  - destruct (scenario_ignores_unknown_years example_simulator "mixed"
                double_2010_and_unknown example_store example_dataset Hnd Hc)
      as (r & h' & data' & E & Ek & Hc' & Hk & Hlen & _ & _ & _ & Hok & _).
    assert (Hr : r = inr (base_data example_simulator)).
    { apply Hok.
      - repeat (apply NoDup_cons_2;
                [rewrite list_elem_of_In; simpl; intuition discriminate|]).
        apply NoDup_nil_2.
      - intros year m x Hm Hx. apply lookup_Some_In in Hm, Hx.
        destruct Hx as [[= <- <-]|[[= <- <-]|[]]];
          destruct Hm as [[= <-]|[[= <-]|[[= <-]|[]]]].
        exists 30000%Z. vm_compute. reflexivity. }
    subst r. exists (base_data example_simulator), h', data'.
    split; [exact E|]. split; [exact Ek|]. split; [exact Hc'|].
    split; [exact Hk|exact Hlen].
  - destruct (scenario_ignores_unknown_years example_simulator "unknown"
                only_unknown example_store example_dataset Hnd Hc)
      as (r & h' & data' & E & _ & Hc' & _ & _ & _ & _ & _ & _ & Hsame).
    destruct Hsame as [-> ->].
    { intros year Hy Hin. simpl in Hy, Hin.
      destruct Hy as [<-|[<-|[]]]; destruct Hin as [H|[H|[]]]; discriminate H. }
    exists h'. split; [exact E|exact Hc'].
Defined.

(** C8 (as stated, refuted): nothing is rejected.  [estimate_profits]
    returns for the margin rates 2, 0 and -1, and [simulate_scenario] returns
    for the multipliers -1 and 0: the record of 2010 becomes -0.8, -15000,
    -12.5 and the record of 2011 becomes all zero. *)
Lemma out_of_range_parameters_are_accepted :
  (1 <? 2)%float = true ∧ (-1 <? 0)%float = true
  ∧ (∃ v, estimate_profits example_dataset 2 = inr v)
  ∧ (∃ v, estimate_profits example_dataset 0 = inr v)
  ∧ (∃ v, estimate_profits example_dataset (-1) = inr v)
  ∧ ∃ o h x y,
      run_scenario example_dataset "negative" negative_and_zero [] = (inr o, h)
      ∧ Dict.lookup (scenario_data o) 2010%Z = Some x
      ∧ revenue x = (-0.8)%float ∧ players x = (-15000)%Z ∧ bets x = (-12.5)%float
      ∧ Dict.lookup (scenario_data o) 2011%Z = Some y
      ∧ revenue y = 0%float ∧ players y = 0%Z ∧ bets y = 0%float.
Proof.
  split; [reflexivity|]. split; [reflexivity|].
  split; [by eexists|]. split; [by eexists|]. split; [by eexists|].
  eexists _, _, _, _. split; [vm_compute; reflexivity|].
  cbn [scenario_data]. split; [reflexivity|].
  split; [reflexivity|]. split; [reflexivity|]. split; [reflexivity|].
  split; [reflexivity|]. by repeat split.
Qed.

(** C8 (amended): there is no parameter validation.  [estimate_profits]
    returns a result for every data set and every margin rate.  Building the
    analyser and the simulator and running [simulate_scenario] returns a
    result for every data set and all multipliers, of any sign, with
    distinct years, as long as [int(players * multiplier)] raises nothing
    for the adjusted years of the data set; and when the run raises, the
    exception is the [OverflowError] or the [ValueError] of that conversion
    for a year the data set has, not a rejection of a parameter. *)
Theorem parameters_are_not_validated :
  (∀ (d : Dataset) (r : float), ∃ v, estimate_profits d r = inr v)
  ∧ (∀ (data : Dataset) (name : string)
       (parameters : Dict.t string (Dict.t Z float)) (h0 : heap),
       NoDup (Dict.keys (Dict.get parameters "revenue_multipliers" [])) →
       (∀ year m x,
          Dict.lookup (Dict.get parameters "revenue_multipliers" []) year = Some m →
          Dict.lookup data year = Some x →
          ∃ n, scaled_players (players x) m = inr n) →
       ∃ o h, run_scenario data name parameters h0 = (inr o, h)
              ∧ before o = data
              ∧ Dict.keys (scenario_data o) = Dict.keys data)
  ∧ (∀ (data : Dataset) (name : string)
       (parameters : Dict.t string (Dict.t Z float)) (h0 h : heap) (e : exn),
       run_scenario data name parameters h0 = (inl e, h) →
       (e = OverflowError ∨ e = ValueError)
       ∧ ∃ year m p,
           In (year, m) (Dict.get parameters "revenue_multipliers" [])
           ∧ In year (Dict.keys data)
           ∧ scaled_players p m = inl e).
Proof.
  split; [|split].
  - intros d r. eexists. reflexivity.
  - intros data name parameters h0 Hms Hconv.
    destruct (run_scenario_spec data name parameters h0) as (h & E).
    destruct (apply_scenario_convertible _ data Hms Hconv) as (Hok & _).
    rewrite Hok in E. eexists _, h. split; [exact E|].
    cbn [before scenario_data]. split; [reflexivity|apply keys_apply_scenario].
  - intros data name parameters h0 h e Hrun.
    destruct (run_scenario_spec data name parameters h0) as (h1 & E).
    rewrite E in Hrun.
    destruct (fst (apply_scenario _ data)) as [e'|[]] eqn:Ee; [|discriminate].
    injection Hrun as -> _.
    destruct (apply_scenario_error _ data e Ee) as (year & m & p & Hin & Hy & Hp).
    split; [exact (scaled_players_errors p m e Hp)|]. by exists year, m, p.
Qed.

Lemma parameters_are_not_validated_witness :
  NoDup (Dict.keys (Dict.get negative_and_zero "revenue_multipliers" []))
  ∧ (∃ o h, run_scenario example_dataset "negative" negative_and_zero [] = (inr o, h)
            ∧ Dict.keys (scenario_data o) = [2010; 2011]%Z)
  ∧ (∃ h, run_scenario example_dataset "huge" huge_2010 [] = (inl OverflowError, h))
  ∧ (OverflowError = OverflowError ∨ OverflowError = ValueError).
Proof.
  assert (Hms : NoDup (Dict.keys (Dict.get negative_and_zero "revenue_multipliers" []))).
  { repeat (apply NoDup_cons_2;
            [rewrite list_elem_of_In; simpl; intuition discriminate|]).
    apply NoDup_nil_2. }
  split; [exact Hms|].
  destruct parameters_are_not_validated as (_ & Hrun & Herr).
  split.
  - destruct (Hrun example_dataset "negative" negative_and_zero [] Hms)
      as (o & h & E & _ & Hk).
    { intros year m x Hm Hx. apply lookup_Some_In in Hm, Hx.
      destruct Hx as [[= <- <-]|[[= <- <-]|[]]];
        destruct Hm as [[= <-]|[[= <-]|[]]].
      - exists (-15000)%Z. vm_compute. reflexivity.
      - exists 0%Z. vm_compute. reflexivity. }
    exists o, h. split; [exact E|exact Hk].
  - assert (E : ∃ h, run_scenario example_dataset "huge" huge_2010 []
                     = (inl OverflowError, h)).
    { eexists. vm_compute. reflexivity. }
    split; [exact E|]. destruct E as [h E].
    exact (proj1 (Herr example_dataset "huge" huge_2010 [] h OverflowError E)).
Defined.

(** ** Further properties of the simulator and of the market shares *)

(** A scenario that raised nothing found every adjusted player count
    convertible. *)
Lemma apply_scenario_success (ms : Dict.t Z float) (data : Dataset) :
  NoDup (Dict.keys ms) → fst (apply_scenario ms data) = inr tt → convertible ms data.
Proof.
  revert data. induction ms as [|[y m0] ms IH]; intros data Hnd Hok.
  - intros year m x Hm. discriminate Hm.
  - simpl in Hnd. apply NoDup_cons in Hnd as [Hy Hnd].
    rewrite list_elem_of_In in Hy.
    assert (Hy' : Dict.lookup ms y = None) by (by apply lookup_None_iff).
    cbn [apply_scenario] in Hok.
    pose proof (lookup_apply_step_other data (y, m0)) as Hother. cbn [fst] in Hother.
    unfold apply_step in Hok, Hother. cbn [fst snd] in Hok, Hother.
    intros year m x Hm Hx. cbn [Dict.lookup] in Hm.
    destruct (Dict.lookup data y) as [x0|] eqn:Ex0.
    + destruct (scaled_players (players x0) m0) as [e|n0] eqn:En0; [discriminate|].
      cbn [snd] in Hother.
      destruct (decide (y = year)) as [<-|Hne].
      * injection Hm as <-. rewrite Ex0 in Hx. injection Hx as <-. by exists n0.
      * apply (IH _ Hnd Hok year m x Hm). by rewrite Hother.
    + destruct (decide (y = year)) as [<-|Hne]; [congruence|].
      by apply (IH _ Hnd Hok year m x Hm).
Qed.

(** X1: for every data set and every scenario, when the run returns, the
    analyser's own data after the call are the data the scenario returned:
    the simulator works on the analyser's records, not on copies. *)
Theorem scenario_shares_the_records (data : Dataset) (name : string)
    (parameters : Dict.t string (Dict.t Z float)) (h0 : heap) (o : Outcome) (h : heap) :
  run_scenario data name parameters h0 = (inr o, h) →
  before o = data
  ∧ after o = scenario_data o
  ∧ Dict.keys (after o) = Dict.keys data
  ∧ (NoDup (Dict.keys (Dict.get parameters "revenue_multipliers" [])) →
     ∀ year x m,
       Dict.lookup data year = Some x →
       Dict.lookup (Dict.get parameters "revenue_multipliers" []) year = Some m →
       ∃ x', Dict.lookup (after o) year = Some x'
             ∧ revenue x' = (revenue x * m)%float
             ∧ bets x' = (bets x * m)%float).
Proof.
  destruct (run_scenario_spec data name parameters h0) as (h1 & E).
  rewrite E.
  destruct (fst (apply_scenario _ data)) as [e|[]] eqn:Ee; [discriminate|].
  intros [= <- _]. cbn [before after scenario_data].
  split; [reflexivity|]. split; [reflexivity|].
  split; [apply keys_apply_scenario|].
  intros Hms year x m Hx Hm.
  pose proof (apply_scenario_success _ data Hms Ee) as Hconv.
  destruct (apply_scenario_convertible _ data Hms Hconv) as (_ & Hadj & _).
  destruct (Hadj year x m Hx Hm) as (n & _ & Hl).
  exists (adjust m x n). by split.
Qed.

Lemma scenario_shares_the_records_witness :
  ∃ o h x',
    run_scenario example_dataset "double" double_2010 [] = (inr o, h)
    ∧ before o = example_dataset
    ∧ Dict.lookup (after o) 2010%Z = Some x'
    ∧ revenue x' = 1.6%float.
Proof.
  assert (E : ∃ o h, run_scenario example_dataset "double" double_2010 [] = (inr o, h)).
  { eexists _, _. vm_compute. reflexivity. }
  destruct E as (o & h & E).
  destruct (scenario_shares_the_records example_dataset "double" double_2010 [] o h E)
    as (Hb & _ & _ & Hadj).
  destruct (Hadj (NoDup_singleton 2010%Z) 2010%Z (mkYearData 0.8 15000 12.5 "Lancement")
              2.0%float eq_refl eq_refl) as (x' & Hx' & Hrev & _).
  exists o, h, x'. split; [exact E|]. split; [exact Hb|]. split; [exact Hx'|exact Hrev].
Defined.

(** X2: scenarios compound.  A second call of [simulate_scenario] with the
    same adjustments starts from the records the first call left: each
    adjusted year ends with its revenue and bets multiplied twice. *)
Theorem repeated_scenario_compounds
    (self : GamingScenarioSimulator) (name : string)
    (parameters : Dict.t string (Dict.t Z float)) (h h1 h2 : heap) (data : Dataset)
    (sim1 sim2 : Dict.t Z ref) :
  NoDup (Dict.values (base_data self)) →
  contents (base_data self) h = inr data →
  NoDup (Dict.keys (Dict.get parameters "revenue_multipliers" [])) →
  simulate_scenario self name parameters h = (inr sim1, h1) →
  simulate_scenario self name parameters h1 = (inr sim2, h2) →
  ∃ data2,
    contents sim2 h2 = inr data2
    ∧ contents (base_data self) h2 = inr data2
    ∧ (∀ year x m,
         Dict.lookup data year = Some x →
         Dict.lookup (Dict.get parameters "revenue_multipliers" []) year = Some m →
         ∃ x2, Dict.lookup data2 year = Some x2
               ∧ revenue x2 = (revenue x * m * m)%float
               ∧ bets x2 = (bets x * m * m)%float)
    ∧ (∀ year x,
         Dict.lookup data year = Some x →
         Dict.lookup (Dict.get parameters "revenue_multipliers" []) year = None →
         Dict.lookup data2 year = Some x).
Proof.
  intros Hnd Hc Hms E1 E2.
  destruct (simulate_scenario_contents self name parameters h data Hnd Hc)
    as (h1' & E1' & Hc1 & _).
  set (ms := Dict.get parameters "revenue_multipliers" []) in *.
  rewrite E1 in E1'.
  destruct (fst (apply_scenario ms data)) as [e|[]] eqn:Ok1; [discriminate|].
  injection E1' as -> <-.
  destruct (simulate_scenario_contents self name parameters h1 _ Hnd Hc1)
    as (h2' & E2' & Hc2 & _).
  fold ms in E2', Hc2. rewrite E2 in E2'.
  set (data1 := snd (apply_scenario ms data)) in *.
  destruct (fst (apply_scenario ms data1)) as [e|[]] eqn:Ok2; [discriminate|].
  injection E2' as -> <-.
  destruct (apply_scenario_convertible ms data Hms (apply_scenario_success ms data Hms Ok1))
    as (_ & Hadj1 & Hkeep1).
  destruct (apply_scenario_convertible ms data1 Hms (apply_scenario_success ms data1 Hms Ok2))
    as (_ & Hadj2 & Hkeep2).
  exists (snd (apply_scenario ms data1)).
  split; [exact Hc2|]. split; [exact Hc2|]. split.
  - intros year x m Hx Hm.
    destruct (Hadj1 year x m Hx Hm) as (n1 & _ & Hl1).
    destruct (Hadj2 year _ m Hl1 Hm) as (n2 & _ & Hl2).
    eexists. split; [exact Hl2|]. by split.
  - intros year x Hx Hm. rewrite (Hkeep2 year Hm). unfold data1.
    by rewrite (Hkeep1 year Hm).
Qed.

Lemma repeated_scenario_compounds_witness :
  ∃ sim1 h1 sim2 h2 data2 x2,
    simulate_scenario example_simulator "double" double_2010 example_store = (inr sim1, h1)
    ∧ simulate_scenario example_simulator "double" double_2010 h1 = (inr sim2, h2)
    ∧ contents sim2 h2 = inr data2
    ∧ Dict.lookup data2 2010%Z = Some x2
    ∧ revenue x2 = 3.2%float ∧ bets x2 = 50.0%float.
Proof.
  destruct example_simulator_wf as [Hnd Hc].
  assert (E1 : ∃ sim1 h1,
             simulate_scenario example_simulator "double" double_2010 example_store
             = (inr sim1, h1)
             ∧ ∃ sim2 h2,
                 simulate_scenario example_simulator "double" double_2010 h1
                 = (inr sim2, h2)).
  { eexists _, _. split; [vm_compute; reflexivity|].
    eexists _, _. vm_compute. reflexivity. }
  destruct E1 as (sim1 & h1 & E1 & sim2 & h2 & E2).
  destruct (repeated_scenario_compounds example_simulator "double" double_2010
              example_store h1 h2 example_dataset sim1 sim2 Hnd Hc
              (NoDup_singleton 2010%Z) E1 E2)
    as (data2 & Hc2 & _ & Hadj & _).
  destruct (Hadj 2010%Z (mkYearData 0.8 15000 12.5 "Lancement") 2.0%float eq_refl eq_refl)
    as (x2 & Hx2 & Hrev & Hbets).
  exists sim1, h1, sim2, h2, data2, x2.
  split; [exact E1|]. split; [exact E2|]. split; [exact Hc2|]. split; [exact Hx2|].
  split; [exact Hrev|exact Hbets].
Defined.

Lemma market_size_years (year : Z) :
  (2010 ≤ year ≤ 2023)%Z ↔ In year (Dict.keys market_size).
Proof.
  split.
  - intros Hy.
    assert (H : (year = 2010 ∨ year = 2011 ∨ year = 2012 ∨ year = 2013 ∨ year = 2014
                 ∨ year = 2015 ∨ year = 2016 ∨ year = 2017 ∨ year = 2018 ∨ year = 2019
                 ∨ year = 2020 ∨ year = 2021 ∨ year = 2022 ∨ year = 2023)%Z) by lia.
    simpl. repeat (destruct H as [->|H]; [tauto|]). subst. tauto.
  - simpl. intros H. repeat (destruct H as [<-|H]; [lia|]). destruct H.
Qed.

Lemma market_size_nonzero (year : Z) (s : float) :
  Dict.lookup market_size year = Some s → is_zero (s * 1000) = false.
Proof.
  intros Hs. apply lookup_Some_In in Hs. simpl in Hs.
  repeat (destruct Hs as [Hs|Hs]; [injection Hs as <- <-; reflexivity|]).
  destruct Hs.
Qed.

(** X3: [analyze_market_share] covers the years 2010 to 2023 only.  On a
    data set with distinct years that are all in that range it returns one
    share per year, the rounded revenue / (size x 1000) x 100 with the size
    of its own table; on a data set with a year outside that range it raises
    [KeyError]. *)
Theorem market_share_covers_2010_to_2023 (d : Dataset) :
  NoDup (Dict.keys d) →
  ((∀ year, In year (Dict.keys d) → (2010 ≤ year ≤ 2023)%Z) →
   ∃ shares,
     analyze_market_share d = inr shares
     ∧ Dict.keys shares = Dict.keys d
     ∧ (∀ year data,
          Dict.lookup d year = Some data →
          ∃ s, Dict.lookup market_size year = Some s
               ∧ Dict.lookup shares year
                 = Some (Py.round (revenue data / (s * 1000) * 100) 2)))
  ∧ ((∃ year, In year (Dict.keys d) ∧ (year < 2010 ∨ 2023 < year)%Z) →
     analyze_market_share d = inl KeyError).
Proof.
  intros Hnd. split.
  - intros Hall.
    destruct (market_share_loop_ok market_size d []) as (shares & E & Hk & _ & Hthis).
    { exact Hnd. }
    { intros year Hy.
      destruct (lookup_In_keys market_size year) as [s Hs].
      { apply market_size_years. by apply Hall. }
      exists s. split; [exact Hs|]. by apply (market_size_nonzero year). }
    exists shares. split; [exact E|]. split; [exact Hk|].
    intros year data Hl.
    destruct (lookup_In_keys market_size year) as [s Hs].
    { apply market_size_years. apply Hall. by apply (lookup_Some_keys d year data). }
    exists s. split; [exact Hs|]. by apply Hthis.
  - intros (year & Hy & Hout).
    destruct (market_share_loop_missing market_size d []) as [_ Hk].
    { exists year. split; [exact Hy|]. rewrite <- market_size_years. lia. }
    apply Hk. intros y s _ Hs. by apply (market_size_nonzero y).
Qed.

Lemma market_share_covers_2010_to_2023_witness :
  NoDup (Dict.keys example_dataset)
  ∧ (∃ shares, analyze_market_share example_dataset = inr shares
               ∧ Dict.lookup shares 2011%Z = Some 0.12%float)
  ∧ NoDup (Dict.keys [(2024%Z, mkYearData 0.5 10 1.0 "Residuel")])
  ∧ analyze_market_share [(2024%Z, mkYearData 0.5 10 1.0 "Residuel")] = inl KeyError.
Proof.
  split; [exact example_years_distinct|].
  destruct (market_share_covers_2010_to_2023 example_dataset example_years_distinct)
    as [H1 _].
  destruct (market_share_covers_2010_to_2023 [(2024%Z, mkYearData 0.5 10 1.0 "Residuel")]
              (NoDup_singleton 2024%Z)) as [_ H2].
  split.
  - destruct H1 as (shares & E & _ & Hl).
    { intros year [<-|[<-|[]]]; simpl; lia. }
    exists shares. split; [exact E|].
    destruct (Hl 2011%Z (mkYearData 1.5 28000 25.0 "Croissance") eq_refl)
      as (s & Hs & Hshare).
    injection Hs as <-. exact Hshare.
  - split; [exact (NoDup_singleton 2024%Z)|].
    apply H2. exists 2024%Z. split; [by left|lia].
Defined.

(** X4: a market size that is zero makes the share computation raise
    [ZeroDivisionError]: when every year of the data set is in the series
    and the size of one of them, multiplied by 1000, is zero, no share is
    returned. *)
Theorem market_share_zero_size_raises (ms : Dict.t Z float) (d : Dataset) :
  (∀ year, In year (Dict.keys d) → In year (Dict.keys ms)) →
  (∃ year s, In year (Dict.keys d) ∧ Dict.lookup ms year = Some s
             ∧ is_zero (s * 1000) = true) →
  analyze_market_share_with ms d = inl ZeroDivisionError.
Proof.
  unfold analyze_market_share_with, Dict.items. generalize (@nil (Z * float)).
  induction d as [|[y data] d IH]; intros acc Hall (year & s & Hy & Hs & Hz).
  - destruct Hy.
  - cbn [market_share_loop].
    destruct (lookup_In_keys ms y) as [s0 Hs0]; [apply Hall; by left|].
    destruct (is_zero (s0 * 1000)) eqn:Hz0.
    + by rewrite (market_share_step_zero ms acc y data s0 Hs0 Hz0).
    + rewrite (market_share_step_ok ms acc y data s0 Hs0 Hz0). cbn [bind].
      apply IH.
      * intros year' Hy'. apply Hall. by right.
      * exists year, s. split; [|by split].
        simpl in Hy. destruct Hy as [<-|Hy]; [|exact Hy]. congruence.
Qed.

Lemma market_share_zero_size_raises_witness :
  analyze_market_share_with zero_market example_dataset = inl ZeroDivisionError.
Proof.
  apply market_share_zero_size_raises.
  - intros year [<-|[<-|[]]]; simpl; tauto.
  - exists 2011%Z, 0.0%float. split; [simpl; tauto|]. split; reflexivity.
Defined.

(** X5: the end of the script compares the scenario with itself.  The
    revenue it reports as the real one is read from the analyser after the
    simulation: it is 39.29, the scenario's total, while the total of the
    built-in data is 33.1. *)
Theorem main_reports_the_scenario_as_real :
  ∃ revenue_reel revenue_scenario h c,
    main [] = (inr (revenue_reel, revenue_scenario), h)
    ∧ revenue_reel = 39.29%float
    ∧ Py.round revenue_scenario 2 = revenue_reel
    ∧ calculate_cumulative_revenue _create_gaming_revenue_data = inr c
    ∧ revenue_total c = 33.1%float.
Proof.
  eexists _, _, _, _. split; [vm_compute; reflexivity|].
  split; [reflexivity|]. split; [reflexivity|].
  split; [vm_compute; reflexivity|]. reflexivity.
Qed.
